(** * json2plot: the configuration loader and the chart renderer

    A shallow embedding of [json2plot.py].  The decoded JSON document is
    a value of type [json]; Python's dynamic operations on it ([in],
    subscripting, [len], iteration, [==]) are written out with the
    exceptions they raise.  The plotting library is seen through the
    calls made on the axes object, the operating system through a map
    from paths to file contents, standard input and standard output.
    What the libraries do is left open: [json.load] and the [re] module
    are parameters of the functions that call them, [np.array] and
    [plt.savefig] are the members of two classes. *)

From Stdlib Require Import ZArith List Bool Ascii String Lia.
From Stdlib Require Import Floats.PrimFloat.
From Stdlib Require Import DecimalString.
From stdpp Require Import base option list strings gmap.

Import ListNotations.
Local Open Scope string_scope.
Local Open Scope Z_scope.
Local Open Scope list_scope.

(** ** Python values and exceptions *)

(** What [json.load] returns: [None], [bool], [int], [float], [str],
    [list] and [dict].  A [dict] is kept as its bindings in insertion
    order; the first binding of a key is the one that counts. *)
#[warnings="-register-all"]
Inductive json : Type :=
| JNull
| JBool (b : bool)
| JInt (z : Z)
| JFloat (f : float)
| JStr (s : string)
| JList (l : list json)
| JObj (kvs : list (string * json)).

Inductive exn : Type :=
| KeyError
| IndexError
| TypeError
| ValueError
| EOFError
| ReError
| OtherError (name : string).

Inductive result (A : Type) : Type :=
| Ok (a : A)
| Raise (e : exn).
Arguments Ok {A} a.
Arguments Raise {A} e.

Definition bind {A B : Type} (m : result A) (k : A -> result B) : result B :=
  match m with
  | Ok a => k a
  | Raise e => Raise e
  end.

Notation "'let!' x ':=' m 'in' k" := (bind m (fun x => k))
  (at level 10, x name, m at level 100, k at level 200).

(** [a and b], [a or b] on conditions that may raise: the right operand
    is evaluated only when the left one does not decide. *)
Definition and_then (a b : result bool) : result bool :=
  let! x := a in if x then b else Ok false.

Definition or_else (a b : result bool) : result bool :=
  let! x := a in if x then Ok true else b.

Module Py.

Fixpoint assoc (k : string) (kvs : list (string * json)) : option json :=
  match kvs with
  | [] => None
  | (k', v) :: rest => if String.eqb k k' then Some v else assoc k rest
  end.

Fixpoint distinct_keys (seen : list string) (kvs : list (string * json)) : nat :=
  match kvs with
  | [] => O
  | (k, _) :: rest =>
      if existsb (String.eqb k) seen then distinct_keys seen rest
      else S (distinct_keys (k :: seen) rest)
  end.

(** [sub in s] on two strings. *)
Fixpoint contains (sub s : string) : bool :=
  String.prefix sub s
  || match s with
     | EmptyString => false
     | String _ rest => contains sub rest
     end.

Definition is_str (k : string) (v : json) : bool :=
  match v with
  | JStr s => String.eqb s k
  | _ => false
  end.

(** [k in v] for a string [k]. *)
Definition contains_key (k : string) (v : json) : result bool :=
  match v with
  | JObj kvs => Ok (match assoc k kvs with Some _ => true | None => false end)
  | JList l => Ok (existsb (is_str k) l)
  | JStr s => Ok (contains k s)
  | _ => Raise TypeError
  end.

(** [v[k]] for a string [k]. *)
Definition getitem (v : json) (k : string) : result json :=
  match v with
  | JObj kvs => match assoc k kvs with Some x => Ok x | None => Raise KeyError end
  | _ => Raise TypeError
  end.

(** [v[i]] for an integer index [i >= 0]. *)
Definition getidx (v : json) (i : nat) : result json :=
  match v with
  | JList l => match nth_error l i with Some x => Ok x | None => Raise IndexError end
  | JStr s =>
      match String.get i s with
      | Some c => Ok (JStr (String c EmptyString))
      | None => Raise IndexError
      end
  | JObj _ => Raise KeyError
  | _ => Raise TypeError
  end.

Definition len (v : json) : result nat :=
  match v with
  | JList l => Ok (List.length l)
  | JStr s => Ok (String.length s)
  | JObj kvs => Ok (distinct_keys [] kvs)
  | _ => Raise TypeError
  end.

Fixpoint chars (s : string) : list json :=
  match s with
  | EmptyString => []
  | String c rest => JStr (String c EmptyString) :: chars rest
  end.

Fixpoint keys (seen : list string) (kvs : list (string * json)) : list json :=
  match kvs with
  | [] => []
  | (k, _) :: rest =>
      if existsb (String.eqb k) seen then keys seen rest
      else JStr k :: keys (k :: seen) rest
  end.

(** The elements [for x in v] runs through. *)
Definition iter (v : json) : result (list json) :=
  match v with
  | JList l => Ok l
  | JStr s => Ok (chars s)
  | JObj kvs => Ok (keys [] kvs)
  | _ => Raise TypeError
  end.

Fixpoint float_of_pos (p : positive) : float :=
  match p with
  | xH => 1%float
  | xO q => PrimFloat.mul 2%float (float_of_pos q)
  | xI q => PrimFloat.add (PrimFloat.mul 2%float (float_of_pos q)) 1%float
  end.

Definition float_of_Z (n : Z) : float :=
  match n with
  | Z0 => 0%float
  | Zpos p => float_of_pos p
  | Zneg p => PrimFloat.opp (float_of_pos p)
  end.

(** [v == n] for an integer constant [n] of small magnitude (below
    2^53, where [float_of_Z] is exact): [True == 1] and [1.0 == 1]
    hold in Python, as do [False == 0] and [0.0 == 0]. *)
Definition eq_int (v : json) (n : Z) : bool :=
  match v with
  | JInt z => Z.eqb z n
  | JBool b => Z.eqb (if b then 1 else 0) n
  | JFloat f => PrimFloat.eqb f (float_of_Z n)
  | _ => false
  end.

(** [v == s] for a string constant [s]. *)
Definition eq_str (v : json) (s : string) : bool := is_str s v.

Definition is_none (v : json) : bool :=
  match v with JNull => true | _ => false end.

Definition is_list (v : json) : bool :=
  match v with JList _ => true | _ => false end.

End Py.

(** ** The data model *)

Record Series : Type := mkSeries {
  s_name : json;
  s_color : json;
  s_linewidth : json;
  s_linestyle : json;
  s_marker : json;
  s_marker_size : json;
  s_x : list json;
  s_y : list json
}.

(** The three [numpy] arrays of a fill, each kept as its elements. *)
Record Fill : Type := mkFill {
  f_color : json;
  f_x : list json;
  f_y0 : list json;
  f_y1 : list json
}.

Definition SERIES_DEFAULT_LINEWIDTH : json := JFloat 2%float.
Definition SERIES_DEFAULT_MARKER_SIZE : json := JInt 4.

(** ** Series normalization *)

(** [x if k in d else dflt] *)
Definition get_or (d : json) (k : string) (dflt : json) : result json :=
  let! p := Py.contains_key k d in
  if p then Py.getitem d k else Ok dflt.

(** One turn of the loop over [series["data"]], on the pair [(x, y)]. *)
Definition series_point (acc : list json * list json) (v : json)
  : list json * list json :=
  let '(x, y) := acc in
  match v with
  | JList [a; b] => (x ++ [a], y ++ [b])
  | JList [b] => (x ++ [JInt (Z.of_nat (List.length x))], y ++ [b])
  | JList _ => (x, y)
  | JInt _ | JFloat _ => (x ++ [JInt (Z.of_nat (List.length x))], y ++ [v])
  | _ => (x, y)
  end.

Definition series_points (data : list json) : list json * list json :=
  fold_left series_point data ([], []).

Definition process_series (series : json) : result Series :=
  let! name := get_or series "name" JNull in
  let! color := get_or series "color" JNull in
  let! linewidth := get_or series "linewidth" SERIES_DEFAULT_LINEWIDTH in
  let! linestyle := get_or series "linestyle" JNull in
  let! marker := get_or series "marker" JNull in
  let! marker_size := get_or series "marker_size" SERIES_DEFAULT_MARKER_SIZE in
  let! has_data := Py.contains_key "data" series in
  let! xy := (if has_data then
                let! d := Py.getitem series "data" in
                let! vs := Py.iter d in
                Ok (series_points vs)
              else Ok ([], [])) in
  Ok (mkSeries name color linewidth linestyle marker marker_size (fst xy) (snd xy)).

Fixpoint map_result {A B : Type} (f : A -> result B) (l : list A) : result (list B) :=
  match l with
  | [] => Ok []
  | a :: rest =>
      let! b := f a in
      let! bs := map_result f rest in
      Ok (b :: bs)
  end.

Definition process_series_data (series_json : json) : result (list Series) :=
  let! entries := Py.iter series_json in
  map_result process_series entries.

(** ** Fill normalization *)

Fixpoint fold_result {A B : Type} (f : A -> B -> result A) (l : list B) (a : A)
  : result A :=
  match l with
  | [] => Ok a
  | b :: rest => let! a' := f a b in fold_result f rest a'
  end.

(** One turn of the loop over [fill["data"]], on the triple
    [(x, y0, y1)]. *)
Definition fill_point (acc : list json * list json * list json) (values : json)
  : result (list json * list json * list json) :=
  let '(x, y0, y1) := acc in
  let! n := Py.len values in
  if Nat.eqb n 3 then
    let! a := Py.getidx values 0 in
    let! b := Py.getidx values 1 in
    let! c := Py.getidx values 2 in
    Ok (x ++ [a], y0 ++ [b], y1 ++ [c])
  else if Nat.eqb n 2 then
    let! a := Py.getidx values 0 in
    let! c := Py.getidx values 1 in
    Ok (x ++ [a], y0 ++ [JInt 0], y1 ++ [c])
  else Ok (x, y0, y1).

Definition fill_points (data : list json)
  : result (list json * list json * list json) :=
  fold_result fill_point data ([], [], []).

(** [numpy]: [np.array] on a Python list.  What it does with the
    elements (which values it converts, which lists it refuses, and with
    which exception) is the library's business and is left open; an
    array it returns is kept as its elements along the first axis, of
    which there are as many as the list had. *)
Class Numpy : Type := {
  np_array : list json -> result (list json);
  np_array_length :
    forall l a, np_array l = Ok a -> List.length a = List.length l
}.

Definition process_fill {np : Numpy} (fill : json) : result Fill :=
  let! color := get_or fill "color" JNull in
  let! has_data := Py.contains_key "data" fill in
  let! t := (if has_data then
               let! d := Py.getitem fill "data" in
               let! vs := Py.iter d in
               fill_points vs
             else Ok ([], [], [])) in
  let '(x, y0, y1) := t in
  let! ax := np_array x in
  let! ay0 := np_array y0 in
  let! ay1 := np_array y1 in
  Ok (mkFill color ax ay0 ay1).

Definition process_fill_data {np : Numpy} (fill_json : json) : result (list Fill) :=
  let! entries := Py.iter fill_json in
  map_result process_fill entries.

(** ** The loaded configuration *)

(** The attributes of a [PlotData] object.  An attribute that holds
    whatever the document gave is a [json] ([JNull] is [None]); the two
    limits are [None] or a tuple; the four flags only ever hold [False]
    or [True]. *)
Record PlotData : Type := mkPlotData {
  title : json;
  x_label : json;
  y_label : json;
  legend_y_offset : json;
  legend_loc : json;
  x_lim : option (list json);
  y_lim : option (list json);
  x_scale : json;
  y_scale : json;
  x_log_base : json;
  y_log_base : json;
  x_ticks : json;
  y_ticks : json;
  x_ticks_labels : json;
  y_ticks_labels : json;
  x_ticks_minor : bool;
  y_ticks_minor : bool;
  grid_major : bool;
  grid_minor : bool;
  series_data : option (list Series);
  fill_data : option (list Fill);
  fontsize_title : json;
  fontsize_label : json;
  fontsize_legend : json;
  fontweight_title : json;
  labelsize_tick : json
}.

Definition set_title (v : json) (self : PlotData) : PlotData :=
  mkPlotData v (x_label self) (y_label self) (legend_y_offset self)
    (legend_loc self) (x_lim self) (y_lim self) (x_scale self)
    (y_scale self) (x_log_base self) (y_log_base self) (x_ticks self)
    (y_ticks self) (x_ticks_labels self) (y_ticks_labels self)
    (x_ticks_minor self) (y_ticks_minor self) (grid_major self)
    (grid_minor self) (series_data self) (fill_data self)
    (fontsize_title self) (fontsize_label self) (fontsize_legend self)
    (fontweight_title self) (labelsize_tick self).

Definition set_x_label (v : json) (self : PlotData) : PlotData :=
  mkPlotData (title self) v (y_label self) (legend_y_offset self)
    (legend_loc self) (x_lim self) (y_lim self) (x_scale self)
    (y_scale self) (x_log_base self) (y_log_base self) (x_ticks self)
    (y_ticks self) (x_ticks_labels self) (y_ticks_labels self)
    (x_ticks_minor self) (y_ticks_minor self) (grid_major self)
    (grid_minor self) (series_data self) (fill_data self)
    (fontsize_title self) (fontsize_label self) (fontsize_legend self)
    (fontweight_title self) (labelsize_tick self).

Definition set_y_label (v : json) (self : PlotData) : PlotData :=
  mkPlotData (title self) (x_label self) v (legend_y_offset self)
    (legend_loc self) (x_lim self) (y_lim self) (x_scale self)
    (y_scale self) (x_log_base self) (y_log_base self) (x_ticks self)
    (y_ticks self) (x_ticks_labels self) (y_ticks_labels self)
    (x_ticks_minor self) (y_ticks_minor self) (grid_major self)
    (grid_minor self) (series_data self) (fill_data self)
    (fontsize_title self) (fontsize_label self) (fontsize_legend self)
    (fontweight_title self) (labelsize_tick self).

Definition set_legend_y_offset (v : json) (self : PlotData) : PlotData :=
  mkPlotData (title self) (x_label self) (y_label self) v (legend_loc self)
    (x_lim self) (y_lim self) (x_scale self) (y_scale self)
    (x_log_base self) (y_log_base self) (x_ticks self) (y_ticks self)
    (x_ticks_labels self) (y_ticks_labels self) (x_ticks_minor self)
    (y_ticks_minor self) (grid_major self) (grid_minor self)
    (series_data self) (fill_data self) (fontsize_title self)
    (fontsize_label self) (fontsize_legend self) (fontweight_title self)
    (labelsize_tick self).

Definition set_legend_loc (v : json) (self : PlotData) : PlotData :=
  mkPlotData (title self) (x_label self) (y_label self)
    (legend_y_offset self) v (x_lim self) (y_lim self) (x_scale self)
    (y_scale self) (x_log_base self) (y_log_base self) (x_ticks self)
    (y_ticks self) (x_ticks_labels self) (y_ticks_labels self)
    (x_ticks_minor self) (y_ticks_minor self) (grid_major self)
    (grid_minor self) (series_data self) (fill_data self)
    (fontsize_title self) (fontsize_label self) (fontsize_legend self)
    (fontweight_title self) (labelsize_tick self).

Definition set_x_lim (v : option (list json)) (self : PlotData) : PlotData :=
  mkPlotData (title self) (x_label self) (y_label self)
    (legend_y_offset self) (legend_loc self) v (y_lim self) (x_scale self)
    (y_scale self) (x_log_base self) (y_log_base self) (x_ticks self)
    (y_ticks self) (x_ticks_labels self) (y_ticks_labels self)
    (x_ticks_minor self) (y_ticks_minor self) (grid_major self)
    (grid_minor self) (series_data self) (fill_data self)
    (fontsize_title self) (fontsize_label self) (fontsize_legend self)
    (fontweight_title self) (labelsize_tick self).

Definition set_y_lim (v : option (list json)) (self : PlotData) : PlotData :=
  mkPlotData (title self) (x_label self) (y_label self)
    (legend_y_offset self) (legend_loc self) (x_lim self) v (x_scale self)
    (y_scale self) (x_log_base self) (y_log_base self) (x_ticks self)
    (y_ticks self) (x_ticks_labels self) (y_ticks_labels self)
    (x_ticks_minor self) (y_ticks_minor self) (grid_major self)
    (grid_minor self) (series_data self) (fill_data self)
    (fontsize_title self) (fontsize_label self) (fontsize_legend self)
    (fontweight_title self) (labelsize_tick self).

Definition set_x_scale (v : json) (self : PlotData) : PlotData :=
  mkPlotData (title self) (x_label self) (y_label self)
    (legend_y_offset self) (legend_loc self) (x_lim self) (y_lim self) v
    (y_scale self) (x_log_base self) (y_log_base self) (x_ticks self)
    (y_ticks self) (x_ticks_labels self) (y_ticks_labels self)
    (x_ticks_minor self) (y_ticks_minor self) (grid_major self)
    (grid_minor self) (series_data self) (fill_data self)
    (fontsize_title self) (fontsize_label self) (fontsize_legend self)
    (fontweight_title self) (labelsize_tick self).

Definition set_y_scale (v : json) (self : PlotData) : PlotData :=
  mkPlotData (title self) (x_label self) (y_label self)
    (legend_y_offset self) (legend_loc self) (x_lim self) (y_lim self)
    (x_scale self) v (x_log_base self) (y_log_base self) (x_ticks self)
    (y_ticks self) (x_ticks_labels self) (y_ticks_labels self)
    (x_ticks_minor self) (y_ticks_minor self) (grid_major self)
    (grid_minor self) (series_data self) (fill_data self)
    (fontsize_title self) (fontsize_label self) (fontsize_legend self)
    (fontweight_title self) (labelsize_tick self).

Definition set_x_log_base (v : json) (self : PlotData) : PlotData :=
  mkPlotData (title self) (x_label self) (y_label self)
    (legend_y_offset self) (legend_loc self) (x_lim self) (y_lim self)
    (x_scale self) (y_scale self) v (y_log_base self) (x_ticks self)
    (y_ticks self) (x_ticks_labels self) (y_ticks_labels self)
    (x_ticks_minor self) (y_ticks_minor self) (grid_major self)
    (grid_minor self) (series_data self) (fill_data self)
    (fontsize_title self) (fontsize_label self) (fontsize_legend self)
    (fontweight_title self) (labelsize_tick self).

Definition set_y_log_base (v : json) (self : PlotData) : PlotData :=
  mkPlotData (title self) (x_label self) (y_label self)
    (legend_y_offset self) (legend_loc self) (x_lim self) (y_lim self)
    (x_scale self) (y_scale self) (x_log_base self) v (x_ticks self)
    (y_ticks self) (x_ticks_labels self) (y_ticks_labels self)
    (x_ticks_minor self) (y_ticks_minor self) (grid_major self)
    (grid_minor self) (series_data self) (fill_data self)
    (fontsize_title self) (fontsize_label self) (fontsize_legend self)
    (fontweight_title self) (labelsize_tick self).

Definition set_x_ticks (v : json) (self : PlotData) : PlotData :=
  mkPlotData (title self) (x_label self) (y_label self)
    (legend_y_offset self) (legend_loc self) (x_lim self) (y_lim self)
    (x_scale self) (y_scale self) (x_log_base self) (y_log_base self) v
    (y_ticks self) (x_ticks_labels self) (y_ticks_labels self)
    (x_ticks_minor self) (y_ticks_minor self) (grid_major self)
    (grid_minor self) (series_data self) (fill_data self)
    (fontsize_title self) (fontsize_label self) (fontsize_legend self)
    (fontweight_title self) (labelsize_tick self).

Definition set_y_ticks (v : json) (self : PlotData) : PlotData :=
  mkPlotData (title self) (x_label self) (y_label self)
    (legend_y_offset self) (legend_loc self) (x_lim self) (y_lim self)
    (x_scale self) (y_scale self) (x_log_base self) (y_log_base self)
    (x_ticks self) v (x_ticks_labels self) (y_ticks_labels self)
    (x_ticks_minor self) (y_ticks_minor self) (grid_major self)
    (grid_minor self) (series_data self) (fill_data self)
    (fontsize_title self) (fontsize_label self) (fontsize_legend self)
    (fontweight_title self) (labelsize_tick self).

Definition set_x_ticks_labels (v : json) (self : PlotData) : PlotData :=
  mkPlotData (title self) (x_label self) (y_label self)
    (legend_y_offset self) (legend_loc self) (x_lim self) (y_lim self)
    (x_scale self) (y_scale self) (x_log_base self) (y_log_base self)
    (x_ticks self) (y_ticks self) v (y_ticks_labels self)
    (x_ticks_minor self) (y_ticks_minor self) (grid_major self)
    (grid_minor self) (series_data self) (fill_data self)
    (fontsize_title self) (fontsize_label self) (fontsize_legend self)
    (fontweight_title self) (labelsize_tick self).

Definition set_y_ticks_labels (v : json) (self : PlotData) : PlotData :=
  mkPlotData (title self) (x_label self) (y_label self)
    (legend_y_offset self) (legend_loc self) (x_lim self) (y_lim self)
    (x_scale self) (y_scale self) (x_log_base self) (y_log_base self)
    (x_ticks self) (y_ticks self) (x_ticks_labels self) v
    (x_ticks_minor self) (y_ticks_minor self) (grid_major self)
    (grid_minor self) (series_data self) (fill_data self)
    (fontsize_title self) (fontsize_label self) (fontsize_legend self)
    (fontweight_title self) (labelsize_tick self).

Definition set_x_ticks_minor (v : bool) (self : PlotData) : PlotData :=
  mkPlotData (title self) (x_label self) (y_label self)
    (legend_y_offset self) (legend_loc self) (x_lim self) (y_lim self)
    (x_scale self) (y_scale self) (x_log_base self) (y_log_base self)
    (x_ticks self) (y_ticks self) (x_ticks_labels self)
    (y_ticks_labels self) v (y_ticks_minor self) (grid_major self)
    (grid_minor self) (series_data self) (fill_data self)
    (fontsize_title self) (fontsize_label self) (fontsize_legend self)
    (fontweight_title self) (labelsize_tick self).

Definition set_y_ticks_minor (v : bool) (self : PlotData) : PlotData :=
  mkPlotData (title self) (x_label self) (y_label self)
    (legend_y_offset self) (legend_loc self) (x_lim self) (y_lim self)
    (x_scale self) (y_scale self) (x_log_base self) (y_log_base self)
    (x_ticks self) (y_ticks self) (x_ticks_labels self)
    (y_ticks_labels self) (x_ticks_minor self) v (grid_major self)
    (grid_minor self) (series_data self) (fill_data self)
    (fontsize_title self) (fontsize_label self) (fontsize_legend self)
    (fontweight_title self) (labelsize_tick self).

Definition set_grid_major (v : bool) (self : PlotData) : PlotData :=
  mkPlotData (title self) (x_label self) (y_label self)
    (legend_y_offset self) (legend_loc self) (x_lim self) (y_lim self)
    (x_scale self) (y_scale self) (x_log_base self) (y_log_base self)
    (x_ticks self) (y_ticks self) (x_ticks_labels self)
    (y_ticks_labels self) (x_ticks_minor self) (y_ticks_minor self) v
    (grid_minor self) (series_data self) (fill_data self)
    (fontsize_title self) (fontsize_label self) (fontsize_legend self)
    (fontweight_title self) (labelsize_tick self).

Definition set_grid_minor (v : bool) (self : PlotData) : PlotData :=
  mkPlotData (title self) (x_label self) (y_label self)
    (legend_y_offset self) (legend_loc self) (x_lim self) (y_lim self)
    (x_scale self) (y_scale self) (x_log_base self) (y_log_base self)
    (x_ticks self) (y_ticks self) (x_ticks_labels self)
    (y_ticks_labels self) (x_ticks_minor self) (y_ticks_minor self)
    (grid_major self) v (series_data self) (fill_data self)
    (fontsize_title self) (fontsize_label self) (fontsize_legend self)
    (fontweight_title self) (labelsize_tick self).

Definition set_series_data (v : option (list Series)) (self : PlotData) : PlotData :=
  mkPlotData (title self) (x_label self) (y_label self)
    (legend_y_offset self) (legend_loc self) (x_lim self) (y_lim self)
    (x_scale self) (y_scale self) (x_log_base self) (y_log_base self)
    (x_ticks self) (y_ticks self) (x_ticks_labels self)
    (y_ticks_labels self) (x_ticks_minor self) (y_ticks_minor self)
    (grid_major self) (grid_minor self) v (fill_data self)
    (fontsize_title self) (fontsize_label self) (fontsize_legend self)
    (fontweight_title self) (labelsize_tick self).

Definition set_fill_data (v : option (list Fill)) (self : PlotData) : PlotData :=
  mkPlotData (title self) (x_label self) (y_label self)
    (legend_y_offset self) (legend_loc self) (x_lim self) (y_lim self)
    (x_scale self) (y_scale self) (x_log_base self) (y_log_base self)
    (x_ticks self) (y_ticks self) (x_ticks_labels self)
    (y_ticks_labels self) (x_ticks_minor self) (y_ticks_minor self)
    (grid_major self) (grid_minor self) (series_data self) v
    (fontsize_title self) (fontsize_label self) (fontsize_legend self)
    (fontweight_title self) (labelsize_tick self).

Definition set_fontsize_title (v : json) (self : PlotData) : PlotData :=
  mkPlotData (title self) (x_label self) (y_label self)
    (legend_y_offset self) (legend_loc self) (x_lim self) (y_lim self)
    (x_scale self) (y_scale self) (x_log_base self) (y_log_base self)
    (x_ticks self) (y_ticks self) (x_ticks_labels self)
    (y_ticks_labels self) (x_ticks_minor self) (y_ticks_minor self)
    (grid_major self) (grid_minor self) (series_data self) (fill_data self)
    v (fontsize_label self) (fontsize_legend self) (fontweight_title self)
    (labelsize_tick self).

Definition set_fontsize_label (v : json) (self : PlotData) : PlotData :=
  mkPlotData (title self) (x_label self) (y_label self)
    (legend_y_offset self) (legend_loc self) (x_lim self) (y_lim self)
    (x_scale self) (y_scale self) (x_log_base self) (y_log_base self)
    (x_ticks self) (y_ticks self) (x_ticks_labels self)
    (y_ticks_labels self) (x_ticks_minor self) (y_ticks_minor self)
    (grid_major self) (grid_minor self) (series_data self) (fill_data self)
    (fontsize_title self) v (fontsize_legend self) (fontweight_title self)
    (labelsize_tick self).

Definition set_fontsize_legend (v : json) (self : PlotData) : PlotData :=
  mkPlotData (title self) (x_label self) (y_label self)
    (legend_y_offset self) (legend_loc self) (x_lim self) (y_lim self)
    (x_scale self) (y_scale self) (x_log_base self) (y_log_base self)
    (x_ticks self) (y_ticks self) (x_ticks_labels self)
    (y_ticks_labels self) (x_ticks_minor self) (y_ticks_minor self)
    (grid_major self) (grid_minor self) (series_data self) (fill_data self)
    (fontsize_title self) (fontsize_label self) v (fontweight_title self)
    (labelsize_tick self).

Definition set_fontweight_title (v : json) (self : PlotData) : PlotData :=
  mkPlotData (title self) (x_label self) (y_label self)
    (legend_y_offset self) (legend_loc self) (x_lim self) (y_lim self)
    (x_scale self) (y_scale self) (x_log_base self) (y_log_base self)
    (x_ticks self) (y_ticks self) (x_ticks_labels self)
    (y_ticks_labels self) (x_ticks_minor self) (y_ticks_minor self)
    (grid_major self) (grid_minor self) (series_data self) (fill_data self)
    (fontsize_title self) (fontsize_label self) (fontsize_legend self) v
    (labelsize_tick self).

Definition set_labelsize_tick (v : json) (self : PlotData) : PlotData :=
  mkPlotData (title self) (x_label self) (y_label self)
    (legend_y_offset self) (legend_loc self) (x_lim self) (y_lim self)
    (x_scale self) (y_scale self) (x_log_base self) (y_log_base self)
    (x_ticks self) (y_ticks self) (x_ticks_labels self)
    (y_ticks_labels self) (x_ticks_minor self) (y_ticks_minor self)
    (grid_major self) (grid_minor self) (series_data self) (fill_data self)
    (fontsize_title self) (fontsize_label self) (fontsize_legend self)
    (fontweight_title self) v.

(** [-0.15], the double nearest to it. *)
Definition DEFUALT_LEGEND_Y_OFFSET : json := JFloat (-0x1.3333333333333p-3)%float.
Definition DEFUALT_LEGEND_LOC : json := JStr "best".
Definition DEFAULT_LOG_BASE : json := JInt 10.

(** The attributes as [__init__] sets them before it reads the file. *)
Definition init_attributes : PlotData := {|
  title := JNull;
  x_label := JNull;
  y_label := JNull;
  legend_y_offset := DEFUALT_LEGEND_Y_OFFSET;
  legend_loc := DEFUALT_LEGEND_LOC;
  x_lim := None;
  y_lim := None;
  x_scale := JNull;
  y_scale := JNull;
  x_log_base := DEFAULT_LOG_BASE;
  y_log_base := DEFAULT_LOG_BASE;
  x_ticks := JNull;
  y_ticks := JNull;
  x_ticks_labels := JNull;
  y_ticks_labels := JNull;
  x_ticks_minor := false;
  y_ticks_minor := false;
  grid_major := false;
  grid_minor := false;
  series_data := None;
  fill_data := None;
  fontsize_title := JInt 16;
  fontsize_label := JInt 14;
  fontsize_legend := JInt 9;
  fontweight_title := JInt 600;
  labelsize_tick := JInt 13
|}.

(** ** process_json *)

(** [if cond: self.attr = value] *)
Definition assign_if {V : Type} (cond : result bool) (value : result V)
    (set : V -> PlotData -> PlotData) (self : PlotData) : result PlotData :=
  let! c := cond in
  if c then let! v := value in Ok (set v self) else Ok self.

(** [len(raw_json[k]) > 0] *)
Definition nonempty_at (raw_json : json) (k : string) : result bool :=
  let! v := Py.getitem raw_json k in
  let! n := Py.len v in
  Ok (Nat.ltb 0 n).

(** [if k in raw_json: self.attr = raw_json[k]] *)
Definition copy_key (raw_json : json) (k : string)
    (set : json -> PlotData -> PlotData) : PlotData -> result PlotData :=
  assign_if (Py.contains_key k raw_json) (Py.getitem raw_json k) set.

(** [if k in raw_json and len(raw_json[k]) > 0: self.attr = raw_json[k]] *)
Definition copy_nonempty (raw_json : json) (k : string)
    (set : json -> PlotData -> PlotData) : PlotData -> result PlotData :=
  assign_if (and_then (Py.contains_key k raw_json) (nonempty_at raw_json k))
            (Py.getitem raw_json k) set.

(** [k in raw_json and raw_json[k] is not None and len(raw_json[k]) > 0] *)
Definition legend_loc_given (raw_json : json) (k : string) : result bool :=
  and_then (Py.contains_key k raw_json)
    (and_then (let! v := Py.getitem raw_json k in Ok (negb (Py.is_none v)))
              (nonempty_at raw_json k)).

(** [k in raw_json and isinstance(raw_json[k], list) and len(raw_json[k]) > 0] *)
Definition lim_given (raw_json : json) (k : string) : result bool :=
  and_then (Py.contains_key k raw_json)
    (and_then (let! v := Py.getitem raw_json k in Ok (Py.is_list v))
              (nonempty_at raw_json k)).

(** [tuple(raw_json[k])] *)
Definition tuple_at (raw_json : json) (k : string) : result (option (list json)) :=
  let! v := Py.getitem raw_json k in
  let! l := Py.iter v in
  Ok (Some l).

(** [k in raw_json and raw_json[k] == 1 or raw_json[k] == "True"]:
    [and] binds tighter than [or], so the second subscript is not under
    the membership test. *)
Definition flag_given (raw_json : json) (k : string) : result bool :=
  or_else
    (and_then (Py.contains_key k raw_json)
              (let! v := Py.getitem raw_json k in Ok (Py.eq_int v 1)))
    (let! v := Py.getitem raw_json k in Ok (Py.eq_str v "True")).

(** [if <flag_given>: self.attr = True] *)
Definition set_flag (raw_json : json) (k : string)
    (set : bool -> PlotData -> PlotData) : PlotData -> result PlotData :=
  assign_if (flag_given raw_json k) (Ok true) set.

Definition process_json {np : Numpy} (self : PlotData) (raw_json : json)
  : result PlotData :=
  let! self := copy_key raw_json "title" set_title self in
  let! self := copy_key raw_json "x_label" set_x_label self in
  let! self := copy_key raw_json "y_label" set_y_label self in
  let! self := copy_key raw_json "legend_y_offset" set_legend_y_offset self in
  let! self := assign_if (legend_loc_given raw_json "legend_loc")
                 (Py.getitem raw_json "legend_loc") set_legend_loc self in
  let! self := assign_if (lim_given raw_json "x_lim")
                 (tuple_at raw_json "x_lim") set_x_lim self in
  let! self := assign_if (lim_given raw_json "y_lim")
                 (tuple_at raw_json "y_lim") set_y_lim self in
  let! self := copy_key raw_json "x_scale" set_x_scale self in
  let! self := copy_key raw_json "y_scale" set_y_scale self in
  let! self := copy_key raw_json "x_log_base" set_x_log_base self in
  let! self := copy_key raw_json "y_log_base" set_y_log_base self in
  let! self := copy_nonempty raw_json "x_ticks" set_x_ticks self in
  let! self := copy_nonempty raw_json "y_ticks" set_y_ticks self in
  let! self := copy_nonempty raw_json "x_ticks_labels" set_x_ticks_labels self in
  let! self := copy_nonempty raw_json "y_ticks_labels" set_y_ticks_labels self in
  let! self := set_flag raw_json "x_ticks_minor" set_x_ticks_minor self in
  let! self := set_flag raw_json "y_ticks_minor" set_y_ticks_minor self in
  let! self := set_flag raw_json "grid_major" set_grid_major self in
  let! self := set_flag raw_json "grid_minor" set_grid_minor self in
  let! self := assign_if (Py.contains_key "series" raw_json)
                 (let! v := Py.getitem raw_json "series" in
                  let! l := process_series_data v in Ok (Some l))
                 set_series_data self in
  let! self := assign_if (Py.contains_key "fill" raw_json)
                 (let! v := Py.getitem raw_json "fill" in
                  let! l := process_fill_data v in Ok (Some l))
                 set_fill_data self in
  let! self := copy_key raw_json "fontsize_title" set_fontsize_title self in
  let! self := copy_key raw_json "fontsize_label" set_fontsize_label self in
  let! self := copy_key raw_json "fontsize_legend" set_fontsize_legend self in
  let! self := copy_key raw_json "fontweight_title" set_fontweight_title self in
  copy_key raw_json "labelsize_tick" set_labelsize_tick self.

(** ** process_file *)

(** How a call that may end the program comes back: it returns, it
    leaves through [sys.exit] with a message, or an exception nobody
    catches ends the program with a traceback. *)
Inductive outcome (A : Type) : Type :=
| Returned (a : A)
| Exited (message : string)
| Uncaught (e : exn).
Arguments Returned {A} a.
Arguments Exited {A} message.
Arguments Uncaught {A} e.

Definition MSG_INVALID : string := "Error: Please specify a valid JSON file".

Definition MSG_MISSING (path_to_file : string) : string :=
  ("Error: File `" ++ path_to_file ++ "` does not exist")%string.

Section Loader.

Context {np : Numpy}.

(** [json.load] on the text of a file: the decoded document, or the
    exception raised; a text that is not JSON raises [JSONDecodeError],
    which is a [ValueError]. *)
Variable json_load : string -> result json.

Definition decode (text : string) : result json := json_load text.

(** The regular files are the keys of [fs]; [os.path.isfile] is
    membership. *)
Definition process_file (self : PlotData) (fs : gmap string string)
    (path_to_file : string) : outcome PlotData :=
  match fs !! path_to_file with
  | Some text =>
      match (let! raw_data := decode text in process_json self raw_data) with
      | Ok self' => Returned self'
      | Raise ValueError => Exited MSG_INVALID
      | Raise e => Uncaught e
      end
  | None => Exited (MSG_MISSING path_to_file)
  end.

(** [PlotData(path_to_file)] *)
Definition PlotData_init (fs : gmap string string) (path_to_file : string)
  : outcome PlotData :=
  process_file init_attributes fs path_to_file.

End Loader.

(** ** The renderer: calls on the axes *)

Inductive locator : Type := NullLocator | AutoMinorLocator.

Inductive axis : Type := XAxis | YAxis.

(** The calls [plot] makes on [ax] in the parts followed here, with the
    arguments that vary.  A keyword argument that is not passed is
    [None]. *)
Inductive ax_call : Type :=
| set_minor_locator (a : axis) (l : locator)
| ax_plot (series : Series)
| set_dashes (pattern : list Z)
| set_xlim (left right : option json)
| set_ylim (bottom top : option json).

(** *** Minor ticks *)

(** [if flag == False: NullLocator  elif self.grid_minor: AutoMinorLocator] *)
Definition minor_locator_calls (a : axis) (flag grid_minor : bool) : list ax_call :=
  if Bool.eqb flag false then [set_minor_locator a NullLocator]
  else if grid_minor then [set_minor_locator a AutoMinorLocator]
  else [].

Definition plot_minor_ticks (self : PlotData) : list ax_call :=
  minor_locator_calls XAxis (x_ticks_minor self) (grid_minor self)
  ++ minor_locator_calls YAxis (y_ticks_minor self) (grid_minor self).

(** *** Axis limits *)

Definition tuple_get (t : list json) (i : nat) : result json :=
  match nth_error t i with
  | Some v => Ok v
  | None => Raise IndexError
  end.

(** The lower bound handed to [set_xlim] or [set_ylim]. *)
Definition lower_bound (lim : list json) (scale : json) : result json :=
  let! left := tuple_get lim 0 in
  let! zero :=
    and_then (Ok (Nat.ltb 0 (List.length lim)))
      (and_then (Ok (Py.eq_str scale "log"))
                (let! v := tuple_get lim 0 in Ok (Py.eq_int v 0))) in
  Ok (if zero then JInt 1 else left).

Definition lim_calls (set_lim : option json -> option json -> ax_call)
    (lim : option (list json)) (scale : json) : result (list ax_call) :=
  match lim with
  | None => Ok []
  | Some t =>
      let! low := lower_bound t scale in
      if Nat.eqb (List.length t) 1 then Ok [set_lim (Some low) None]
      else
        let! high := tuple_get t 1 in
        Ok [set_lim (Some low) (Some high)]
  end.

Definition plot_limits (self : PlotData) : result (list ax_call) :=
  let! xs := lim_calls set_xlim (x_lim self) (x_scale self) in
  let! ys := lim_calls set_ylim (y_lim self) (y_scale self) in
  Ok (xs ++ ys).

(** *** Series selection and drawing *)

Definition is_not_None {A : Type} (o : option A) : bool :=
  match o with
  | Some _ => true
  | None => false
  end.

Section Selection.

(** The [re] module: compiled patterns, [re.compile] ([None] when the
    pattern is rejected) and [regex.match], which matches at the start
    of the string. *)
Variable regex : Type.
Variable re_compile : string -> option regex.
Variable re_match : regex -> string -> bool.

Definition compile (pattern : string) : result regex :=
  match re_compile pattern with
  | Some r => Ok r
  | None => Raise ReError
  end.

(** [filter_expressions] as it stands before the loop over the
    series. *)
Definition compile_filters (series_regex : option (list string))
  : result (option (list regex)) :=
  match series_regex with
  | Some (p :: ps) =>
      let! rs := map_result compile (p :: ps) in Ok (Some rs)
  | _ => Ok None
  end.

(** [regex.match(name)] *)
Definition match_name (r : regex) (name : json) : result bool :=
  match name with
  | JStr s => Ok (re_match r s)
  | _ => Raise TypeError
  end.

(** [for string in series_filter: if string in series.name: plot_series = True] *)
Definition filter_step (name : json) (plot_series : bool) (s : string)
  : result bool :=
  let! hit := Py.contains_key s name in
  Ok (if hit then true else plot_series).

(** [for regex in filter_expressions: if regex.match(series.name): plot_series = True] *)
Definition regex_step (name : json) (plot_series : bool) (r : regex)
  : result bool :=
  let! hit := match_name r name in
  Ok (if hit then true else plot_series).

(** The value of [plot_series] when the loop body reaches
    [if plot_series:]. *)
Definition plot_series (series_filter series_regex : option (list string))
    (filter_expressions : option (list regex)) (series : Series) : result bool :=
  let start :=
    if is_not_None series_filter || is_not_None series_regex
    then false else true in
  let! by_name :=
    match series_filter with
    | Some strings => fold_result (filter_step (s_name series)) strings start
    | None => Ok start
    end in
  if is_not_None series_regex && negb by_name then
    match filter_expressions with
    | Some rs => fold_result (regex_step (s_name series)) rs by_name
    | None => Raise TypeError
    end
  else Ok by_name.

Definition dashes (linestyle : json) : list ax_call :=
  if Py.eq_str linestyle "--" then [set_dashes [3; 3]]
  else if Py.eq_str linestyle "-." then [set_dashes [2; 2; 1; 1]]
  else if Py.eq_str linestyle ":" then [set_dashes [1; 1]]
  else [].

Definition draw_series (series_filter series_regex : option (list string))
    (filter_expressions : option (list regex)) (calls : list ax_call)
    (series : Series) : result (list ax_call) :=
  let! shown := plot_series series_filter series_regex filter_expressions series in
  if shown then Ok (calls ++ ax_plot series :: dashes (s_linestyle series))
  else Ok calls.

(** The loop [for series in self.series_data]; an unset
    [series_data] is [None], which cannot be iterated. *)
Definition plot_all_series (self : PlotData)
    (series_filter series_regex : option (list string)) : result (list ax_call) :=
  let! filter_expressions := compile_filters series_regex in
  match series_data self with
  | Some l =>
      fold_result (draw_series series_filter series_regex filter_expressions) l []
  | None => Raise TypeError
  end.

End Selection.

(** ** Output: the file system, the prompt and the report *)

Definition newline : string := String (ascii_of_nat 10) EmptyString.

Definition lower_char (c : ascii) : ascii :=
  let n := nat_of_ascii c in
  if Nat.leb 65 n && Nat.leb n 90 then ascii_of_nat (n + 32) else c.

(** [str.lower] on the letters [A] to [Z]. *)
Fixpoint lower (s : string) : string :=
  match s with
  | EmptyString => EmptyString
  | String c rest => String (lower_char c) (lower rest)
  end.

(** [distutils.util.strtobool] *)
Definition strtobool (val : string) : result Z :=
  let val := lower val in
  if existsb (String.eqb val) ["y"; "yes"; "t"; "true"; "on"; "1"]%string then Ok 1
  else if existsb (String.eqb val) ["n"; "no"; "f"; "false"; "off"; "0"]%string then Ok 0
  else Raise ValueError.

(** What the program can see and change outside itself: the regular
    files with their contents, the lines still to be read on standard
    input, what was written to standard output so far, and whether the
    figure was put on screen. *)
Record World : Type := mkWorld {
  files : gmap string string;
  stdin : list string;
  stdout : list string;
  shown : bool
}.

Definition write (s : string) (w : World) : World :=
  mkWorld (files w) (stdin w) (stdout w ++ [s]) (shown w).

Definition print (s : string) (w : World) : World :=
  write (s ++ newline)%string w.

Definition MSG_RESPOND : string :=
  ("Please respond with 'y' or 'n'." ++ newline)%string.

(** The [while True] loop of [user_yes_no_query]: it ends on the first
    line [strtobool] accepts, and [input] raises [EOFError] when
    standard input is exhausted. *)
Fixpoint ask (lines : list string) (w : World) : result Z * World :=
  match lines with
  | [] => (Raise EOFError, mkWorld (files w) [] (stdout w) (shown w))
  | line :: rest =>
      let w := mkWorld (files w) rest (stdout w) (shown w) in
      match strtobool (lower line) with
      | Ok b => (Ok b, w)
      | Raise ValueError => ask rest (write MSG_RESPOND w)
      | Raise e => (Raise e, w)
      end
  end.

Definition user_yes_no_query (question : string) (w : World) : result Z * World :=
  let w := write (question ++ " [y/n]" ++ newline)%string w in
  ask (stdin w) w.

Definition MSG_EXISTS (f : string) : string :=
  ("The file " ++ f ++ " exists, do you wish to overwrite?")%string.

(** The truth value of what [file_overwrite_check] returns. *)
Definition file_overwrite_check (f : string) (w : World) : result bool * World :=
  match files w !! f with
  | Some _ =>
      match user_yes_no_query (MSG_EXISTS f) w with
      | (Ok overwrite, w') => (Ok (negb (Z.eqb overwrite 0)), w')
      | (Raise e, w') => (Raise e, w')
      end
  | None => (Ok true, w)
  end.

Definition format_dpi (dpi : option Z) : string :=
  match dpi with
  | Some d => NilZero.string_of_int (Z.to_int d)
  | None => "Default"
  end.

Definition MSG_SAVED (output_file : string) (dpi : option Z) : string :=
  ("Figure saved to file: " ++ output_file ++ " (" ++ format_dpi dpi ++ " DPI)")%string.

Definition MSG_NOT_SAVED : string := "Figure not saved - file protected".

(** [matplotlib.pyplot]: [plt.savefig] of the rendered [image] to a
    path at a resolution.  Where it writes (it may add an extension, and
    paths alias), and when it raises (an unsupported format, a missing
    directory), is the library's business and is left open: it gives
    back how it ended and the files as it left them. *)
Class Pyplot : Type := {
  plt_savefig :
    string -> option Z -> string -> gmap string string
    -> result unit * gmap string string
}.

(** [plt.savefig(output_file, dpi=dpi, ...)] *)
Definition savefig {plt : Pyplot} (output_file : string) (dpi : option Z)
    (image : string) (w : World) : result unit * World :=
  let '(r, fs) := plt_savefig output_file dpi image (files w) in
  (r, mkWorld fs (stdin w) (stdout w) (shown w)).

(** The last statement of [plot], from [if output_file is None:]. *)
Definition plot_output {plt : Pyplot} (image : string)
    (output_file : option string) (dpi : option Z) (force : bool) (w : World)
  : result unit * World :=
  match output_file with
  | None => (Ok tt, mkWorld (files w) (stdin w) (stdout w) true)
  | Some f =>
      let '(go, w) :=
        if force then (Ok true, w) else file_overwrite_check f w in
      match go with
      | Ok true =>
          match savefig f dpi image w with
          | (Ok _, w') => (Ok tt, print (MSG_SAVED f dpi) w')
          | (Raise e, w') => (Raise e, w')
          end
      | Ok false => (Ok tt, print MSG_NOT_SAVED w)
      | Raise e => (Raise e, w)
      end
  end.

(** ** Shapes of data points, for the statements below *)

(** [int] or [float] exactly: a [bool] is neither. *)
Definition is_number (v : json) : bool :=
  match v with
  | JInt _ | JFloat _ => true
  | _ => false
  end.

(** Neither a list of one or two elements nor a number. *)
Definition other_shape (v : json) : bool :=
  negb (is_number v)
  && match v with
     | JList l => negb (Nat.eqb (List.length l) 1) && negb (Nat.eqb (List.length l) 2)
     | _ => true
     end.

(** The index a point without an x takes: the number of points kept so
    far. *)
Definition next_index (data : list json) : json :=
  JInt (Z.of_nat (List.length (fst (series_points data)))).

(** ** Vocabulary of the loader statements *)

(** The four flags of a configuration, in the order the loader sets
    them. *)
Definition flags (self : PlotData) : bool * bool * bool * bool :=
  (x_ticks_minor self, y_ticks_minor self, grid_major self, grid_minor self).

(** The exceptions a failed lookup on the decoded document raises. *)
Definition lookup_error (e : exn) : bool :=
  match e with
  | KeyError | TypeError => true
  | _ => false
  end.

Definition raises_only {A : Type} (m : result A) : Prop :=
  forall e, m = Raise e -> lookup_error e = true.

(** The values that make a flag condition true: those equal to [1]
    under [==] (the integer, the boolean [true], the float [1.0]) and
    the string ["True"]. *)
Definition sets_flag (v : json) : Prop :=
  v = JInt 1 \/ v = JBool true
  \/ (exists f, v = JFloat f /\ PrimFloat.eqb f 1%float = true)
  \/ v = JStr "True".

(** Key [k] of the object is present with such a value. *)
Definition given_true (kvs : list (string * json)) (k : string) : Prop :=
  exists v, Py.assoc k kvs = Some v /\ sets_flag v.

(** A document with the four flag keys and nothing else. *)
Definition only_flags (xm ym gM gm : json) : json :=
  JObj [("x_ticks_minor", xm); ("y_ticks_minor", ym);
        ("grid_major", gM); ("grid_minor", gm)].

(** A decoder for the sample files of the examples: it knows three JSON
    texts and rejects every other text. *)
Definition sample_load (text : string) : result json :=
  if String.eqb text "{}" then Ok (JObj [])
  else if String.eqb text "[]" then Ok (JList [])
  else if String.eqb text "5" then Ok (JInt 5)
  else Raise ValueError.

(** Stand-ins for the two libraries in the examples.  The array
    conversion takes a list of integers as it is and refuses every other
    list with [ValueError]; saving writes the image under the path as
    given and never fails. *)
Definition is_int (v : json) : bool :=
  match v with
  | JInt _ => true
  | _ => false
  end.

Definition sample_array (l : list json) : result (list json) :=
  if forallb is_int l then Ok l else Raise ValueError.

Definition sample_numpy : Numpy.
Proof.
  refine {| np_array := sample_array |}.
  intros l a. unfold sample_array.
  destruct (forallb is_int l); [intros [= <-]; reflexivity | discriminate].
Defined.

Definition sample_pyplot : Pyplot :=
  {| plt_savefig := fun output_file _ image fs => (Ok tt, <[output_file := image]> fs) |}.

(** ** Vocabulary of the renderer statements *)

(** The lower bound of an axis as drawn: [1] in place of a bound equal
    to [0] on a logarithmic axis. *)
Definition lower_of (scale lo : json) : json :=
  if Py.eq_str scale "log" && Py.eq_int lo 0 then JInt 1 else lo.

(** The call expected for a limit: lower bound only for one element,
    both bounds for two (or more, the first two being used). *)
Definition limit_calls (set_lim : option json -> option json -> ax_call)
    (scale : json) (lim : option (list json)) : list ax_call :=
  match lim with
  | None | Some [] => []
  | Some [lo] => [set_lim (Some (lower_of scale lo)) None]
  | Some (lo :: hi :: _) => [set_lim (Some (lower_of scale lo)) (Some hi)]
  end.

(** A line the prompt does not understand, and a line that means no. *)
Definition rejected (line : string) : bool :=
  match strtobool (lower line) with
  | Raise ValueError => true
  | _ => false
  end.

Definition says_no (line : string) : bool :=
  match strtobool (lower line) with
  | Ok 0 => true
  | _ => false
  end.

(** Selection as the description has it, for a series named [n] and the
    compiled patterns [rs]: shown when no filter is given, when a filter
    string occurs in the name, or when a pattern matches the name. *)
Definition selected {regex : Type} (re_match : regex -> string -> bool)
    (series_filter : option (list string)) (rs : option (list regex))
    (n : string) : bool :=
  match series_filter, rs with
  | None, None => true
  | _, _ =>
      existsb (fun s => Py.contains s n) (default [] series_filter)
      || existsb (fun r => re_match r n) (default [] rs)
  end.

(** ** Vocabulary of the further statements *)

(** [d.get(k, dflt)] on the bindings of an object. *)
Definition dict_get (kvs : list (string * json)) (k : string) (dflt : json) : json :=
  match Py.assoc k kvs with
  | Some v => v
  | None => dflt
  end.

Definition has_key (kvs : list (string * json)) (k : string) : Prop :=
  exists v, Py.assoc k kvs = Some v.

(** The rule of the keys that are taken only when they have a positive
    length: [after] is the value under [k] when there is one and it is
    not empty, and [before] otherwise; a value under [k] has a
    length. *)
Definition taken_if_nonempty (kvs : list (string * json)) (k : string)
    (before after : json) : Prop :=
  match Py.assoc k kvs with
  | None => after = before
  | Some v => exists n, Py.len v = Ok n /\ after = if Nat.ltb 0 n then v else before
  end.

(** As many x as y; as many x as lower and upper y. *)
Definition series_aligned (s : Series) : Prop :=
  List.length (s_x s) = List.length (s_y s).

Definition fill_aligned (f : Fill) : Prop :=
  List.length (f_x f) = List.length (f_y0 f)
  /\ List.length (f_y0 f) = List.length (f_y1 f).

(** A data point without an x of its own: a number or a one-element
    list; and the y it carries. *)
Definition no_x (v : json) : bool :=
  match v with
  | JList [_] => true
  | _ => is_number v
  end.

Definition bare_y (v : json) : json :=
  match v with
  | JList [b] => b
  | _ => v
  end.

(** A two-element list, and its two elements. *)
Definition is_pair (v : json) : bool :=
  match v with
  | JList [_; _] => true
  | _ => false
  end.

Definition pair_x (v : json) : json :=
  match v with
  | JList (a :: _) => a
  | _ => v
  end.

Definition pair_y (v : json) : json :=
  match v with
  | JList (_ :: b :: _) => b
  | _ => v
  end.

(** The indices [0, 1, ..., n-1] as Python integers. *)
Definition indices (n : nat) : list json :=
  map (fun i => JInt (Z.of_nat i)) (seq 0 n).

(** The series an object entry stands for, given the elements its data
    runs through. *)
Definition series_of (kvs : list (string * json)) (vs : list json) : Series :=
  mkSeries (dict_get kvs "name" JNull) (dict_get kvs "color" JNull)
    (dict_get kvs "linewidth" SERIES_DEFAULT_LINEWIDTH)
    (dict_get kvs "linestyle" JNull) (dict_get kvs "marker" JNull)
    (dict_get kvs "marker_size" SERIES_DEFAULT_MARKER_SIZE)
    (fst (series_points vs)) (snd (series_points vs)).

(** A line that means yes. *)
Definition says_yes (line : string) : bool :=
  match strtobool (lower line) with
  | Ok 1 => true
  | _ => false
  end.

(** The calls that draw one series: the line, then its dash pattern if
    the line style has one. *)
Definition drawn (series : Series) : list ax_call :=
  ax_plot series :: dashes (s_linestyle series).

(** Selection of a series by its name, when the name is a string. *)
Definition name_selected {regex : Type} (re_match : regex -> string -> bool)
    (series_filter : option (list string)) (rs : option (list regex))
    (series : Series) : bool :=
  match s_name series with
  | JStr n => selected re_match series_filter rs n
  | _ => false
  end.

Definition named (series : Series) : bool :=
  match s_name series with
  | JStr _ => true
  | _ => false
  end.

(** A fill data element the loop can handle: a list, a string, or an
    object whose number of keys is not two or three (subscripting an
    object with [0] raises [KeyError]). *)
Definition fill_sized (v : json) : bool :=
  match v with
  | JList _ | JStr _ => true
  | JObj kvs =>
      negb (Nat.eqb (Py.distinct_keys [] kvs) 3)
      && negb (Nat.eqb (Py.distinct_keys [] kvs) 2)
  | _ => false
  end.

(** The exceptions [np.array] can raise, whatever they are. *)
Definition numpy_raises {np : Numpy} (e : exn) : Prop :=
  exists l, np_array l = Raise e.

(** What can go wrong while a decoded document is read: a failed lookup
    or whatever the array conversion raises. *)
Definition load_error {np : Numpy} (e : exn) : Prop :=
  lookup_error e = true \/ numpy_raises e.

Definition raises_in {A : Type} (P : exn -> Prop) (m : result A) : Prop :=
  forall e, m = Raise e -> P e.

(** A document with the four flag keys, not set, and one fill whose x
    values are a list and a number. *)
Definition ragged_fill : json :=
  JObj [("x_ticks_minor", JInt 0); ("y_ticks_minor", JInt 0);
        ("grid_major", JInt 0); ("grid_minor", JInt 0);
        ("fill", JList [JObj [("data",
            JList [JList [JList [JInt 1; JInt 2]; JInt 0; JInt 1];
                   JList [JInt 3; JInt 0; JInt 1]])]])].

(** * Properties *)

(** ** Series normalization *)

Lemma series_points_snoc (data : list json) (v : json) :
  series_points (data ++ [v]) = series_point (series_points data) v.
Proof. unfold series_points. rewrite fold_left_app. reflexivity. Qed.

Lemma series_point_aligned (acc : list json * list json) (v : json) :
  List.length (fst acc) = List.length (snd acc) ->
  List.length (fst (series_point acc v)) = List.length (snd (series_point acc v)).
Proof.
  destruct acc as [x y]; simpl; intros H.
  destruct v as [| | | | |l|]; simpl; try assumption;
    try (rewrite !length_app; simpl; lia).
  destruct l as [|a [|b [|c l]]]; simpl; try assumption;
    rewrite !length_app; simpl; lia.
Qed.

Lemma series_points_aligned (data : list json) :
  List.length (fst (series_points data)) = List.length (snd (series_points data)).
Proof.
  induction data as [|v data IH] using rev_ind.
  - reflexivity.
  - rewrite series_points_snoc. apply series_point_aligned, IH.
Qed.

(** A series entry that is an object never fails on its optional
    keys. *)
Lemma get_or_obj (kvs : list (string * json)) (k : string) (dflt : json) :
  get_or (JObj kvs) k dflt =
  Ok (match Py.assoc k kvs with Some v => v | None => dflt end).
Proof. unfold get_or; simpl. destruct (Py.assoc k kvs); reflexivity. Qed.

Example series_points_example :
  series_points [JList [JInt 0; JInt 1]; JList [JInt 1; JInt 2]; JInt 2]
  = ([JInt 0; JInt 1; JInt 2], [JInt 1; JInt 2; JInt 2]).
Proof. reflexivity. Qed.

(** C5. Series normalization builds two sequences of equal length from
    the data array: a two-element list [[x, y]] appends [x] and [y]; a
    one-element list [[y]] appends the current index and [y]; a bare
    [int] or [float] appends the current index and the value; a value
    of any other shape is skipped.  The current index is the number of
    points kept so far.  An entry that is an object with such a data
    array yields these sequences, and [[[0,1],[1,2],2]] gives
    x = [0,1,2], y = [1,2,2]. *)
Theorem series_normalization (data : list json) :
  let xy := series_points data in
  List.length (fst xy) = List.length (snd xy)
  /\ (forall a b,
        series_points (data ++ [JList [a; b]]) = (fst xy ++ [a], snd xy ++ [b]))
  /\ (forall b,
        series_points (data ++ [JList [b]])
        = (fst xy ++ [next_index data], snd xy ++ [b]))
  /\ (forall v, is_number v = true ->
        series_points (data ++ [v]) = (fst xy ++ [next_index data], snd xy ++ [v]))
  /\ (forall v, other_shape v = true -> series_points (data ++ [v]) = xy)
  /\ (forall kvs, Py.assoc "data" kvs = Some (JList data) ->
        exists s, process_series (JObj kvs) = Ok s /\ s_x s = fst xy /\ s_y s = snd xy)
  /\ series_points [JList [JInt 0; JInt 1]; JList [JInt 1; JInt 2]; JInt 2]
     = ([JInt 0; JInt 1; JInt 2], [JInt 1; JInt 2; JInt 2]).
Proof.
  cbv zeta. split; [apply series_points_aligned|].
  unfold next_index.
  destruct (series_points data) as [x y] eqn:E.
  repeat split.
  - intros a b. rewrite series_points_snoc, E. reflexivity.
  - intros b. rewrite series_points_snoc, E. reflexivity.
  - intros v Hv. rewrite series_points_snoc, E.
    destruct v; try discriminate Hv; reflexivity.
  - intros v Hv. rewrite series_points_snoc, E.
    destruct v as [| | | | |l|]; try discriminate Hv; try reflexivity.
    destruct l as [|a [|b [|c l]]]; try discriminate Hv; reflexivity.
  - intros kvs Hd. unfold process_series.
    rewrite !get_or_obj. simpl. rewrite Hd. simpl. rewrite E.
    eexists. repeat split; reflexivity.
Qed.

Lemma series_normalization_witness :
  series_points ([JList [JInt 5; JInt 6]] ++ [JFloat 2.5%float])
  = ([JInt 5; JInt 1], [JInt 6; JFloat 2.5%float])
  /\ series_points ([JInt 7] ++ [JStr "a"]) = ([JInt 0], [JInt 7])
  /\ exists s, process_series (JObj [("data", JList [JList [JInt 3]])]) = Ok s
       /\ s_x s = [JInt 0] /\ s_y s = [JInt 3].
Proof.
  split; [|split].
  - apply (proj1 (proj2 (proj2 (proj2 (series_normalization [JList [JInt 5; JInt 6]]))))).
    reflexivity.
  - apply (proj1 (proj2 (proj2 (proj2 (proj2 (series_normalization [JInt 7])))))).
    reflexivity.
  - apply (proj1 (proj2 (proj2 (proj2 (proj2 (proj2
             (series_normalization [JList [JInt 3]]))))))).
    reflexivity.
Defined.

(** C10. A JSON boolean in a series data array contributes no point:
    the array with the boolean gives the same coordinates as the array
    without it, since the scalar branch asks for the type [int] or
    [float] exactly.  The flag keys of the same loader compare with
    [== 1], which the boolean [true] satisfies. *)
Theorem series_skips_booleans (before after : list json) (b : bool) :
  series_points (before ++ JBool b :: after) = series_points (before ++ after)
  /\ is_number (JBool b) = false
  /\ flag_given (JObj [("grid_major", JBool true)]) "grid_major" = Ok true.
Proof.
  split; [|split; reflexivity].
  unfold series_points. rewrite !fold_left_app. simpl.
  destruct (fold_left series_point before ([], [])) as [x y]. reflexivity.
Qed.

(** ** Fill normalization *)

Lemma fold_result_app {A B : Type} (f : A -> B -> result A) (l1 l2 : list B) (a : A) :
  fold_result f (l1 ++ l2) a = let! a' := fold_result f l1 a in fold_result f l2 a'.
Proof.
  revert a. induction l1 as [|b l1 IH]; intros a; simpl.
  - reflexivity.
  - destruct (f a b) as [a'|e]; simpl; [apply IH | reflexivity].
Qed.

Lemma fill_points_snoc (data : list json) (v : json) :
  fill_points (data ++ [v])
  = let! acc := fill_points data in fill_point acc v.
Proof.
  unfold fill_points. rewrite fold_result_app.
  destruct (fold_result fill_point data ([], [], [])) as [acc|e]; simpl;
    [destruct (fill_point acc v) | ]; reflexivity.
Qed.

(** On a list, one turn of the fill loop cannot fail and keeps the
    three sequences of equal length. *)
Lemma fill_point_list (x y0 y1 l : list json) :
  List.length x = List.length y0 -> List.length y0 = List.length y1 ->
  exists x' y0' y1',
    fill_point (x, y0, y1) (JList l) = Ok (x', y0', y1')
    /\ List.length x' = List.length y0' /\ List.length y0' = List.length y1'.
Proof.
  intros H1 H2.
  destruct l as [|a [|b [|c [|d l]]]]; simpl;
    do 3 eexists; (split; [reflexivity|]); rewrite ?length_app; simpl; lia.
Qed.

Lemma fill_points_lists (data : list json) :
  forallb Py.is_list data = true ->
  exists x y0 y1,
    fill_points data = Ok (x, y0, y1)
    /\ List.length x = List.length y0 /\ List.length y0 = List.length y1.
Proof.
  induction data as [|v data IH] using rev_ind; intros Hl.
  - exists [], [], []. repeat split.
  - rewrite forallb_app in Hl. apply andb_prop in Hl as [Hd Hv].
    destruct (IH Hd) as (x & y0 & y1 & E & L1 & L2).
    rewrite fill_points_snoc, E. simpl in Hv |- *.
    destruct v; try discriminate Hv.
    apply fill_point_list; assumption.
Qed.

Lemma bind_Ok {A B : Type} (m : result A) (k : A -> result B) (b : B) :
  bind m k = Ok b -> exists a, m = Ok a /\ k a = Ok b.
Proof. destruct m as [a|e]; simpl; [eauto | discriminate]. Qed.

Lemma assign_if_inv {V : Type} (c : result bool) (v : result V)
    (set : V -> PlotData -> PlotData) (s s' : PlotData) :
  assign_if c v set s = Ok s' ->
  (c = Ok false /\ s' = s) \/ (c = Ok true /\ exists x, v = Ok x /\ s' = set x s).
Proof.
  unfold assign_if. destruct c as [[|]|e]; simpl; try discriminate.
  - destruct v as [x|e]; simpl; [|discriminate].
    intros [= <-]. right. eauto.
  - intros [= <-]. left. auto.
Qed.

Lemma fold_result_invariant {A B : Type} (P : A -> Prop) (f : A -> B -> result A)
    (l : list B) :
  (forall a b a', P a -> f a b = Ok a' -> P a') ->
  forall a a', P a -> fold_result f l a = Ok a' -> P a'.
Proof.
  intros Hf. induction l as [|b l IH]; intros a a' Ha H; simpl in H.
  - injection H as <-. exact Ha.
  - apply bind_Ok in H as (a1 & H1 & H). eapply IH; [|exact H]. eapply Hf; eauto.
Qed.

Lemma fill_point_aligned (x y0 y1 x' y0' y1' : list json) (values : json) :
  List.length x = List.length y0 /\ List.length y0 = List.length y1 ->
  fill_point (x, y0, y1) values = Ok (x', y0', y1') ->
  List.length x' = List.length y0' /\ List.length y0' = List.length y1'.
Proof.
  intros [L1 L2] H. unfold fill_point in H.
  apply bind_Ok in H as (n & _ & H).
  destruct (Nat.eqb n 3).
  - do 3 (let a := fresh "a" in apply bind_Ok in H as (a & _ & H)).
    injection H as <- <- <-. rewrite !length_app. simpl. lia.
  - destruct (Nat.eqb n 2).
    + do 2 (let a := fresh "a" in apply bind_Ok in H as (a & _ & H)).
      injection H as <- <- <-. rewrite !length_app. simpl. lia.
    + injection H as <- <- <-. auto.
Qed.

Lemma fill_point_sized (x y0 y1 : list json) (v : json) :
  fill_sized v = true ->
  List.length x = List.length y0 -> List.length y0 = List.length y1 ->
  exists x' y0' y1',
    fill_point (x, y0, y1) v = Ok (x', y0', y1')
    /\ List.length x' = List.length y0' /\ List.length y0' = List.length y1'.
Proof.
  intros Hv H1 H2. destruct v as [| | | |s|l|kvs]; try discriminate Hv.
  - destruct s as [|c1 [|c2 [|c3 [|c4 s]]]]; simpl;
      do 3 eexists; (split; [reflexivity|]); rewrite ?length_app; simpl; lia.
  - apply fill_point_list; assumption.
  - simpl in Hv |- *. apply andb_prop in Hv as [H3 H2'].
    apply negb_true_iff in H3, H2'. rewrite H3, H2'.
    exists x, y0, y1. repeat split; assumption.
Qed.

Lemma fill_points_sized (data : list json) :
  forallb fill_sized data = true ->
  exists x y0 y1,
    fill_points data = Ok (x, y0, y1)
    /\ List.length x = List.length y0 /\ List.length y0 = List.length y1.
Proof.
  induction data as [|v data IH] using rev_ind; intros Hl.
  - exists [], [], []. repeat split.
  - rewrite forallb_app in Hl. apply andb_prop in Hl as [Hd Hv].
    destruct (IH Hd) as (x & y0 & y1 & E & L1 & L2).
    rewrite fill_points_snoc, E. simpl in Hv |- *.
    apply andb_prop in Hv as [Hv _].
    apply fill_point_sized; assumption.
Qed.

(** C4, as the code has it.  Once the loop is through the fill data
    so far, it keeps a three-element list [[x, y0, y1]] as it is, turns
    a two-element list [[x, y1]] into (x, 0, y1), and skips without
    error every element of any other length, whatever its type (list,
    string, object); the three sequences stay of equal length.  An
    element with no length at all (a number, a boolean, [null]) is not
    skipped but raises [TypeError]; an object of two or three keys
    raises [KeyError]; a string of two or three characters is taken as
    a pair or a triple of its characters.  Over data made of lists,
    strings and objects of other than two or three keys the loop never
    fails.  The fill of an object entry is then the three sequences as
    [np.array] converts them, so it fails when the conversion does.
    The data [[[0,1,2],[1,3]]] gives the triples (0,1,2) and
    (1,0,3). *)
Theorem fill_normalization {np : Numpy} (data x y0 y1 : list json) :
  fill_points data = Ok (x, y0, y1) ->
  List.length x = List.length y0 /\ List.length y0 = List.length y1
  /\ (forall a b c,
        fill_points (data ++ [JList [a; b; c]])
        = Ok (x ++ [a], y0 ++ [b], y1 ++ [c]))
  /\ (forall a c,
        fill_points (data ++ [JList [a; c]])
        = Ok (x ++ [a], y0 ++ [JInt 0], y1 ++ [c]))
  /\ (forall v n, Py.len v = Ok n -> n <> 3%nat -> n <> 2%nat ->
        fill_points (data ++ [v]) = Ok (x, y0, y1))
  /\ (forall v, Py.len v = Raise TypeError ->
        fill_points (data ++ [v]) = Raise TypeError)
  /\ (forall kvs, (Py.len (JObj kvs) = Ok 3%nat \/ Py.len (JObj kvs) = Ok 2%nat) ->
        fill_points (data ++ [JObj kvs]) = Raise KeyError)
  /\ (forall c1 c2 c3,
        fill_points (data ++ [JStr (String c1 (String c2 (String c3 EmptyString)))])
        = Ok (x ++ [JStr (String c1 EmptyString)], y0 ++ [JStr (String c2 EmptyString)],
              y1 ++ [JStr (String c3 EmptyString)]))
  /\ (forall c1 c2,
        fill_points (data ++ [JStr (String c1 (String c2 EmptyString))])
        = Ok (x ++ [JStr (String c1 EmptyString)], y0 ++ [JInt 0],
              y1 ++ [JStr (String c2 EmptyString)]))
  /\ (forall d, forallb fill_sized d = true -> exists t, fill_points d = Ok t)
  /\ (forall kvs, Py.assoc "data" kvs = Some (JList data) ->
        process_fill (JObj kvs)
        = (let! ax := np_array x in
           let! ay0 := np_array y0 in
           let! ay1 := np_array y1 in
           Ok (mkFill (dict_get kvs "color" JNull) ax ay0 ay1)))
  /\ fill_points [JList [JInt 0; JInt 1; JInt 2]; JList [JInt 1; JInt 3]]
     = Ok ([JInt 0; JInt 1], [JInt 1; JInt 0], [JInt 2; JInt 3]).
Proof.
  intros E.
  assert (L : List.length x = List.length y0 /\ List.length y0 = List.length y1).
  { unfold fill_points in E.
    apply (fold_result_invariant
             (fun t => List.length (fst (fst t)) = List.length (snd (fst t))
                       /\ List.length (snd (fst t)) = List.length (snd t))
             fill_point data) in E; [exact E | | simpl; auto].
    intros [[a b] c] v [[a' b'] c'] Hacc Hstep. simpl in *.
    eapply fill_point_aligned; eauto. }
  destruct L as [L1 L2].
  repeat split; try assumption.
  - intros a b c. rewrite fill_points_snoc, E. reflexivity.
  - intros a c. rewrite fill_points_snoc, E. reflexivity.
  - intros v n Hn H3 H2. rewrite fill_points_snoc, E. simpl. rewrite Hn. simpl.
    destruct (Nat.eqb_spec n 3); [contradiction|].
    destruct (Nat.eqb_spec n 2); [contradiction|]. reflexivity.
  - intros v Hv. rewrite fill_points_snoc, E. simpl. rewrite Hv. reflexivity.
  - intros kvs [Hn|Hn]; rewrite fill_points_snoc, E; cbn [bind];
      unfold fill_point; rewrite Hn; reflexivity.
  - intros c1 c2 c3. rewrite fill_points_snoc, E. reflexivity.
  - intros c1 c2. rewrite fill_points_snoc, E. reflexivity.
  - intros d Hd. destruct (fill_points_sized d Hd) as (a & b & c & Hok & _). eauto.
  - intros kvs Hd. unfold process_fill. rewrite get_or_obj. simpl.
    rewrite Hd. simpl. rewrite E. reflexivity.
Qed.

Lemma fill_normalization_witness :
  fill_points ([JList [JInt 4; JInt 5]; JStr "skip"; JObj []]
               ++ [JList [JInt 7; JInt 8; JInt 9]])
  = Ok ([JInt 4] ++ [JInt 7], [JInt 0] ++ [JInt 8], [JInt 5] ++ [JInt 9])
  /\ process_fill (np := sample_numpy)
       (JObj [("data", JList [JList [JInt 4; JInt 5]; JStr "skip"; JObj []])])
     = Ok (mkFill JNull [JInt 4] [JInt 0] [JInt 5]).
Proof.
  destruct (fill_normalization (np := sample_numpy)
              [JList [JInt 4; JInt 5]; JStr "skip"; JObj []]
              [JInt 4] [JInt 0] [JInt 5] eq_refl)
    as (_ & _ & H3 & _ & _ & _ & _ & _ & _ & _ & Hp & _).
  split; [apply H3|].
  rewrite (Hp [("data", JList [JList [JInt 4; JInt 5]; JStr "skip"; JObj []])] eq_refl).
  reflexivity.
Defined.

(** A list among the x values makes them ragged: the loop keeps both
    triples, and the fill is whatever [np.array] makes of the x values,
    here the refusal of the stand-in. *)
Example fill_ragged :
  fill_points [JList [JList [JInt 1; JInt 2]; JInt 0; JInt 1]; JList [JInt 3; JInt 0; JInt 1]]
  = Ok ([JList [JInt 1; JInt 2]; JInt 3], [JInt 0; JInt 0], [JInt 1; JInt 1])
  /\ process_fill (np := sample_numpy)
       (JObj [("data", JList [JList [JList [JInt 1; JInt 2]; JInt 0; JInt 1];
                              JList [JInt 3; JInt 0; JInt 1]])])
     = Raise ValueError.
Proof. split; reflexivity. Qed.

(** C4 as stated fails: a bare number among the fill data is not
    skipped, [len] raises [TypeError] on it and the load stops. *)
Lemma fill_scalar_raises :
  fill_points [JInt 5] = Raise TypeError
  /\ process_fill_data (np := sample_numpy) (JList [JObj [("data", JList [JList [JInt 0; JInt 1; JInt 2]; JInt 5])]])
     = Raise TypeError
  /\ ~ exists fills,
        process_fill_data (np := sample_numpy) (JList [JObj [("data", JList [JList [JInt 0; JInt 1; JInt 2]; JInt 5])]])
        = Ok fills.
Proof.
  repeat split. intros [fills H]. discriminate H.
Qed.

(** ** The loader *)

Lemma assign_if_keeps {V : Type} (c : result bool) (v : result V)
    (set : V -> PlotData -> PlotData) (s s' : PlotData) :
  (forall x t, flags (set x t) = flags t) ->
  assign_if c v set s = Ok s' -> flags s' = flags s.
Proof.
  intros Hset H. apply assign_if_inv in H as [[_ ->]|[_ (x & _ & ->)]]; auto.
Qed.

Lemma set_flag_inv (raw_json : json) (k : string)
    (set : bool -> PlotData -> PlotData) (s s' : PlotData) :
  set_flag raw_json k set s = Ok s' ->
  exists b, flag_given raw_json k = Ok b /\ s' = if b then set true s else s.
Proof.
  unfold set_flag. intros H.
  apply assign_if_inv in H as [[Hc ->]|[Hc (x & [= <-] & ->)]]; eauto.
Qed.

Lemma flag_given_obj (kvs : list (string * json)) (k : string) :
  flag_given (JObj kvs) k =
  match Py.assoc k kvs with
  | Some v => Ok (Py.eq_int v 1 || Py.eq_str v "True")
  | None => Raise KeyError
  end.
Proof.
  unfold flag_given; simpl. destruct (Py.assoc k kvs) as [v|]; simpl; [|reflexivity].
  destruct (Py.eq_int v 1); reflexivity.
Qed.

Lemma eq_str_true (v : json) (s : string) : Py.eq_str v s = true <-> v = JStr s.
Proof.
  unfold Py.eq_str, Py.is_str. destruct v; try (split; [discriminate | intros [=]]).
  rewrite String.eqb_eq. split; [intros ->; reflexivity | intros [= ->]; reflexivity].
Qed.

Ltac next_step H s Hs :=
  apply bind_Ok in H; destruct H as (s & Hs & H).

Ltac keeps H :=
  unfold copy_key, copy_nonempty in H;
  apply assign_if_keeps in H; [| intros; reflexivity].

(** The flags after a load that completes, in terms of what the four
    conditions evaluated to. *)
Lemma process_json_flags {np : Numpy} (self cfg : PlotData) (raw_json : json) :
  process_json self raw_json = Ok cfg ->
  exists b1 b2 b3 b4,
    flag_given raw_json "x_ticks_minor" = Ok b1
    /\ flag_given raw_json "y_ticks_minor" = Ok b2
    /\ flag_given raw_json "grid_major" = Ok b3
    /\ flag_given raw_json "grid_minor" = Ok b4
    /\ flags cfg = (x_ticks_minor self || b1, y_ticks_minor self || b2,
                    grid_major self || b3, grid_minor self || b4).
Proof.
  unfold process_json. intros H.
  do 15 (let s := fresh "s" in let Hs := fresh "Hs" in
         next_step H s Hs; keeps Hs).
  next_step H t1 F1. apply set_flag_inv in F1 as (b1 & G1 & E1).
  next_step H t2 F2. apply set_flag_inv in F2 as (b2 & G2 & E2).
  next_step H t3 F3. apply set_flag_inv in F3 as (b3 & G3 & E3).
  next_step H t4 F4. apply set_flag_inv in F4 as (b4 & G4 & E4).
  do 6 (let s := fresh "s" in let Hs := fresh "Hs" in
        next_step H s Hs; keeps Hs).
  keeps H.
  exists b1, b2, b3, b4. repeat (split; [assumption|]).
  repeat match goal with E : flags _ = flags _ |- _ => rewrite E; clear E end.
  subst t4 t3 t2 t1.
  assert (Hb : flags s13 = flags self).
  { repeat match goal with E : flags _ = flags _ |- _ => rewrite E; clear E end.
    reflexivity. }
  unfold flags in *. injection Hb as <- <- <- <-.
  destruct b1, b2, b3, b4; simpl; rewrite ?orb_true_r, ?orb_false_r; reflexivity.
Qed.

Lemma sets_flag_iff (v : json) :
  Py.eq_int v 1 || Py.eq_str v "True" = true <-> sets_flag v.
Proof.
  unfold sets_flag. rewrite orb_true_iff, eq_str_true. split.
  - intros [H|H]; [|auto 6].
    destruct v; simpl in H; try discriminate H.
    + right; left. destruct b; [reflexivity | discriminate H].
    + left. apply Z.eqb_eq in H. congruence.
    + right; right; left. eauto.
  - intros [-> | [-> | [[f [-> H]] | ->]]]; simpl; auto.
Qed.

(** C1 at its failing input.  A file whose text decodes to the empty
    object does not load: the first flag condition subscripts the
    missing key, [KeyError] is raised, [process_file] catches only
    [ValueError], and the program ends on the uncaught exception. *)
Theorem load_empty_object_raises {np : Numpy} (json_load : string -> result json)
    (fs : gmap string string) (path_to_file text : string) :
  fs !! path_to_file = Some text ->
  json_load text = Ok (JObj []) ->
  flag_given (JObj []) "x_ticks_minor" = Raise KeyError
  /\ process_json init_attributes (JObj []) = Raise KeyError
  /\ PlotData_init json_load fs path_to_file = Uncaught KeyError.
Proof.
  intros Hf Hj. repeat split.
  unfold PlotData_init, process_file, decode. rewrite Hf, Hj. reflexivity.
Qed.

Lemma load_empty_object_raises_witness :
  PlotData_init (np := sample_numpy) sample_load {[ "empty.json" := "{}" ]} "empty.json"
  = Uncaught KeyError.
Proof.
  apply (load_empty_object_raises (np := sample_numpy) sample_load
           {[ "empty.json" := "{}" ]} "empty.json" "{}").
  - vm_compute. reflexivity.
  - reflexivity.
Defined.

(** With the four flag keys present and not set, the same load
    completes and gives the attributes of [__init__]. *)
Example load_flags_only {np : Numpy} :
  process_json init_attributes (only_flags (JInt 0) (JInt 0) (JInt 0) (JInt 0))
  = Ok init_attributes.
Proof. reflexivity. Qed.

(** C2, as the code has it.  When the load of an object completes, each
    of the four flags is true exactly when its key is present with a
    value equal to [1] under [==] (the integer [1], the float [1.0] or
    the JSON boolean [true]) or with the string ["True"]; with any other
    value the flag stays false. *)
Theorem flags_when_loaded {np : Numpy} (kvs : list (string * json)) (cfg : PlotData) :
  process_json init_attributes (JObj kvs) = Ok cfg ->
  (x_ticks_minor cfg = true <-> given_true kvs "x_ticks_minor")
  /\ (y_ticks_minor cfg = true <-> given_true kvs "y_ticks_minor")
  /\ (grid_major cfg = true <-> given_true kvs "grid_major")
  /\ (grid_minor cfg = true <-> given_true kvs "grid_minor").
Proof.
  intros H. apply process_json_flags in H as (b1 & b2 & b3 & b4 & G1 & G2 & G3 & G4 & F).
  unfold flags in F. simpl in F. injection F as -> -> -> ->.
  rewrite flag_given_obj in G1, G2, G3, G4. unfold given_true.
  destruct (Py.assoc "x_ticks_minor" kvs) as [v1|]; [injection G1 as <- | discriminate G1].
  destruct (Py.assoc "y_ticks_minor" kvs) as [v2|]; [injection G2 as <- | discriminate G2].
  destruct (Py.assoc "grid_major" kvs) as [v3|]; [injection G3 as <- | discriminate G3].
  destruct (Py.assoc "grid_minor" kvs) as [v4|]; [injection G4 as <- | discriminate G4].
  repeat split; intros H;
    try (eexists; split; [reflexivity | apply sets_flag_iff; assumption]);
    destruct H as (v' & [= <-] & Hv); apply sets_flag_iff; assumption.
Qed.

Lemma flags_when_loaded_witness :
  exists cfg,
    process_json (np := sample_numpy) init_attributes
      (only_flags (JInt 1) (JStr "True") (JFloat 1%float) (JStr "true")) = Ok cfg
    /\ (x_ticks_minor cfg = true
         <-> given_true [("x_ticks_minor", JInt 1); ("y_ticks_minor", JStr "True");
                         ("grid_major", JFloat 1%float); ("grid_minor", JStr "true")]
                        "x_ticks_minor")
    /\ grid_minor cfg = false.
Proof.
  eexists. split; [reflexivity|].
  split; [|reflexivity].
  apply (flags_when_loaded (np := sample_numpy)
           [("x_ticks_minor", JInt 1); ("y_ticks_minor", JStr "True");
            ("grid_major", JFloat 1%float); ("grid_minor", JStr "true")] _ eq_refl).
Defined.

(** C2 as stated fails: the JSON boolean [true] is neither the integer
    [1] nor the string ["True"], and it sets the flag. *)
Lemma flag_set_by_json_true :
  exists cfg,
    process_json (np := sample_numpy) init_attributes
      (only_flags (JInt 0) (JInt 0) (JBool true) (JInt 0)) = Ok cfg
    /\ grid_major cfg = true
    /\ JBool true <> JInt 1 /\ JBool true <> JStr "True".
Proof.
  eexists. split; [reflexivity|]. repeat split; discriminate.
Qed.

(** ** Which exceptions the loader can raise *)

Lemma raises_only_Ok {A : Type} (a : A) : raises_only (Ok a).
Proof. intros e H. discriminate H. Qed.

Lemma raises_only_lookup {A : Type} (e : exn) :
  lookup_error e = true -> raises_only (@Raise A e).
Proof. intros He e' [= <-]. exact He. Qed.

Lemma raises_only_bind {A B : Type} (m : result A) (k : A -> result B) :
  raises_only m -> (forall a, m = Ok a -> raises_only (k a)) -> raises_only (bind m k).
Proof.
  intros Hm Hk e. destruct m as [a|e']; simpl.
  - apply (Hk a eq_refl).
  - intros [= <-]. apply Hm. reflexivity.
Qed.

Lemma raises_only_if {A : Type} (b : bool) (m1 m2 : result A) :
  raises_only m1 -> raises_only m2 -> raises_only (if b then m1 else m2).
Proof. destruct b; auto. Qed.

Lemma raises_only_contains_key (k : string) (v : json) :
  raises_only (Py.contains_key k v).
Proof. destruct v; simpl; first [apply raises_only_Ok | now apply raises_only_lookup]. Qed.

Lemma raises_only_getitem (v : json) (k : string) : raises_only (Py.getitem v k).
Proof.
  destruct v; simpl; try now apply raises_only_lookup.
  destruct (Py.assoc k kvs); [apply raises_only_Ok | now apply raises_only_lookup].
Qed.

Lemma raises_only_len (v : json) : raises_only (Py.len v).
Proof. destruct v; simpl; first [apply raises_only_Ok | now apply raises_only_lookup]. Qed.

Lemma raises_only_iter (v : json) : raises_only (Py.iter v).
Proof. destruct v; simpl; first [apply raises_only_Ok | now apply raises_only_lookup]. Qed.

(** An index below the length is never out of range. *)
Lemma raises_only_getidx (v : json) (n i : nat) :
  Py.len v = Ok n -> (i < n)%nat -> raises_only (Py.getidx v i).
Proof.
  intros Hn Hi. destruct v; simpl in *; try discriminate Hn.
  - injection Hn as <-. revert i Hi.
    induction s as [|c s IH]; intros i Hi; simpl in *; [lia|].
    destruct i as [|i]; [apply raises_only_Ok | apply IH; lia].
  - injection Hn as <-.
    destruct (nth_error l i) eqn:E; [apply raises_only_Ok|].
    apply nth_error_None in E. lia.
  - now apply raises_only_lookup.
Qed.

Lemma raises_only_map_result {A B : Type} (f : A -> result B) (l : list A) :
  (forall a, raises_only (f a)) -> raises_only (map_result f l).
Proof.
  intros Hf. induction l as [|a l IH]; simpl; [apply raises_only_Ok|].
  apply raises_only_bind; [apply Hf | intros b _].
  apply raises_only_bind; [apply IH | intros bs _; apply raises_only_Ok].
Qed.

Lemma raises_only_fold_result {A B : Type} (f : A -> B -> result A) (l : list B) :
  (forall a b, raises_only (f a b)) -> forall a, raises_only (fold_result f l a).
Proof.
  intros Hf. induction l as [|b l IH]; intros a; simpl; [apply raises_only_Ok|].
  apply raises_only_bind; [apply Hf | intros a' _; apply IH].
Qed.

Create HintDb raises.

#[local] Hint Resolve raises_only_Ok raises_only_contains_key raises_only_getitem
  raises_only_len raises_only_iter : raises.

Ltac raises :=
  repeat first
    [ progress auto with raises
    | apply raises_only_bind; [| intros ? ?]
    | apply raises_only_if
    | apply raises_only_map_result; intros ?
    | apply raises_only_fold_result; intros ? ? ].

Lemma raises_only_get_or (d : json) (k : string) (dflt : json) :
  raises_only (get_or d k dflt).
Proof. unfold get_or. raises. Qed.

Lemma raises_only_process_series (series : json) : raises_only (process_series series).
Proof.
  unfold process_series.
  repeat (apply raises_only_bind; [apply raises_only_get_or | intros ? _]).
  raises.
Qed.

Lemma raises_only_fill_point (acc : list json * list json * list json) (values : json) :
  raises_only (fill_point acc values).
Proof.
  destruct acc as [[x y0] y1]. unfold fill_point.
  apply raises_only_bind; [apply raises_only_len | intros n Hn].
  destruct (Nat.eqb n 3) eqn:E3; [apply Nat.eqb_eq in E3; subst n|].
  - repeat (apply raises_only_bind;
            [apply (raises_only_getidx values 3); [assumption | lia] | intros ? _]).
    apply raises_only_Ok.
  - destruct (Nat.eqb n 2) eqn:E2; [apply Nat.eqb_eq in E2; subst n | apply raises_only_Ok].
    repeat (apply raises_only_bind;
            [apply (raises_only_getidx values 2); [assumption | lia] | intros ? _]).
    apply raises_only_Ok.
Qed.

(** The fill loop of an entry, before the arrays are made. *)
Lemma raises_only_fill_loop (fill : json) (has_data : bool) :
  raises_only (if has_data then
                 let! d := Py.getitem fill "data" in
                 let! vs := Py.iter d in
                 fill_points vs
               else Ok ([], [], [])).
Proof.
  unfold fill_points. apply raises_only_if; [|raises].
  apply raises_only_bind; [raises | intros d _].
  apply raises_only_bind; [raises | intros vs _].
  apply raises_only_fold_result. apply raises_only_fill_point.
Qed.

Lemma raises_only_and_then (a b : result bool) :
  raises_only a -> raises_only b -> raises_only (and_then a b).
Proof. intros Ha Hb. unfold and_then. raises. Qed.

Lemma raises_only_or_else (a b : result bool) :
  raises_only a -> raises_only b -> raises_only (or_else a b).
Proof. intros Ha Hb. unfold or_else. raises. Qed.

Lemma raises_only_assign_if {V : Type} (c : result bool) (v : result V)
    (set : V -> PlotData -> PlotData) (s : PlotData) :
  raises_only c -> raises_only v -> raises_only (assign_if c v set s).
Proof. intros Hc Hv. unfold assign_if. raises. Qed.

Lemma raises_only_nonempty_at (raw_json : json) (k : string) :
  raises_only (nonempty_at raw_json k).
Proof. unfold nonempty_at. raises. Qed.

#[local] Hint Resolve raises_only_and_then raises_only_or_else raises_only_assign_if
  raises_only_nonempty_at raises_only_process_series : raises.

Lemma raises_in_only {np : Numpy} {A : Type} (m : result A) :
  raises_only m -> raises_in load_error m.
Proof. intros H e He. left. apply (H e He). Qed.

Lemma raises_in_Ok {A : Type} (P : exn -> Prop) (a : A) : raises_in P (Ok a).
Proof. intros e H. discriminate H. Qed.

Lemma raises_in_bind {A B : Type} (P : exn -> Prop) (m : result A)
    (k : A -> result B) :
  raises_in P m -> (forall a, raises_in P (k a)) -> raises_in P (bind m k).
Proof.
  intros Hm Hk e. destruct m as [a|e']; simpl.
  - apply Hk.
  - intros [= <-]. apply Hm. reflexivity.
Qed.

Lemma raises_in_map_result {A B : Type} (P : exn -> Prop) (f : A -> result B)
    (l : list A) :
  (forall a, raises_in P (f a)) -> raises_in P (map_result f l).
Proof.
  intros Hf. induction l as [|a l IH]; simpl; [apply raises_in_Ok|].
  apply raises_in_bind; [apply Hf | intros b].
  apply raises_in_bind; [apply IH | intros bs; apply raises_in_Ok].
Qed.

Lemma raises_in_assign_if {V : Type} (P : exn -> Prop) (c : result bool)
    (v : result V) (set : V -> PlotData -> PlotData) (s : PlotData) :
  raises_in P c -> raises_in P v -> raises_in P (assign_if c v set s).
Proof.
  intros Hc Hv. unfold assign_if. apply raises_in_bind; [exact Hc | intros [|]].
  - apply raises_in_bind; [exact Hv | intros x; apply raises_in_Ok].
  - apply raises_in_Ok.
Qed.

Lemma raises_in_np_array {np : Numpy} (l : list json) :
  raises_in load_error (np_array l).
Proof. intros e He. right. exists l. exact He. Qed.

Lemma raises_in_process_fill {np : Numpy} (fill : json) :
  raises_in load_error (process_fill fill).
Proof.
  unfold process_fill.
  apply raises_in_bind; [apply raises_in_only, raises_only_get_or | intros color].
  apply raises_in_bind; [apply raises_in_only; raises | intros has_data].
  apply raises_in_bind; [apply raises_in_only, raises_only_fill_loop | intros [[x y0] y1]].
  repeat (apply raises_in_bind; [apply raises_in_np_array | intros ?]).
  apply raises_in_Ok.
Qed.

(** Whatever the decoded document, [process_json] fails only with
    [KeyError] or [TypeError] from a lookup, or with what [np.array]
    raised on the sequences of a fill. *)
Lemma raises_in_process_json {np : Numpy} (self : PlotData) (raw_json : json) :
  raises_in load_error (process_json self raw_json).
Proof.
  assert (Hfill : forall self',
            raises_in load_error
              (assign_if (Py.contains_key "fill" raw_json)
                 (let! v := Py.getitem raw_json "fill" in
                  let! l := process_fill_data v in Ok (Some l))
                 set_fill_data self')).
  { intros self'.
    apply raises_in_assign_if; [apply raises_in_only; raises|].
    apply raises_in_bind; [apply raises_in_only; raises | intros v].
    apply raises_in_bind; [| intros l; apply raises_in_Ok].
    unfold process_fill_data.
    apply raises_in_bind; [apply raises_in_only; raises | intros entries].
    apply raises_in_map_result, raises_in_process_fill. }
  assert (Hstep : forall (m : result PlotData),
            raises_only m -> raises_in load_error m).
  { intros m. apply raises_in_only. }
  unfold process_json.
  repeat (apply raises_in_bind;
          [ first [ apply Hfill
                  | apply Hstep;
                    unfold copy_key, copy_nonempty, set_flag, legend_loc_given,
                      lim_given, tuple_at, flag_given, process_series_data;
                    try (apply raises_only_assign_if); raises ]
          | intros ? ]).
  apply Hstep. unfold copy_key. apply raises_only_assign_if; raises.
Qed.

(** C6, as the code has it.  A path that is not an existing file ends
    the program with the missing-file message, and a file whose text is
    not JSON ([json.load] raises a [ValueError]) ends it with the
    invalid-format message.  These are not the only ways to fail: any
    other exception of [json.load] is not caught; and when the text does
    decode, the load returns the configuration, or ends on an uncaught
    [KeyError] or [TypeError] raised while the document is read, or
    fails in the array conversion of a fill, with the invalid-format
    message when [np.array] raised a [ValueError] (although the file
    holds valid JSON) and on the uncaught exception otherwise. *)
Theorem loader_outcomes {np : Numpy} (json_load : string -> result json)
    (fs : gmap string string) (path_to_file : string) :
  (fs !! path_to_file = None ->
     PlotData_init json_load fs path_to_file = Exited (MSG_MISSING path_to_file))
  /\ (forall text, fs !! path_to_file = Some text -> json_load text = Raise ValueError ->
        PlotData_init json_load fs path_to_file = Exited MSG_INVALID)
  /\ (forall text e,
        fs !! path_to_file = Some text -> json_load text = Raise e -> e <> ValueError ->
        PlotData_init json_load fs path_to_file = Uncaught e)
  /\ (forall text raw_data,
        fs !! path_to_file = Some text -> json_load text = Ok raw_data ->
        (exists cfg, process_json init_attributes raw_data = Ok cfg
                     /\ PlotData_init json_load fs path_to_file = Returned cfg)
        \/ (exists e, (e = KeyError \/ e = TypeError)
                      /\ process_json init_attributes raw_data = Raise e
                      /\ PlotData_init json_load fs path_to_file = Uncaught e)
        \/ (exists e, numpy_raises e
                      /\ process_json init_attributes raw_data = Raise e
                      /\ ((e = ValueError
                           /\ PlotData_init json_load fs path_to_file = Exited MSG_INVALID)
                          \/ (e <> ValueError
                              /\ PlotData_init json_load fs path_to_file = Uncaught e)))).
Proof.
  unfold PlotData_init, process_file, decode. repeat split.
  - intros ->. reflexivity.
  - intros text -> ->. reflexivity.
  - intros text e -> -> He. simpl. destruct e; try reflexivity. contradiction.
  - intros text raw_data -> ->. simpl.
    destruct (process_json init_attributes raw_data) as [cfg|e] eqn:E.
    + left. eauto.
    + right.
      destruct (raises_in_process_json init_attributes raw_data e E) as [He|He].
      * left. exists e. destruct e; try discriminate He; auto.
      * right. exists e. repeat split; try assumption.
        destruct e; try (right; split; [discriminate | reflexivity]).
        left. split; reflexivity.
Qed.

Lemma loader_outcomes_witness :
  PlotData_init (np := sample_numpy) sample_load {[ "plot.json" := "not json" ]} "other.json"
  = Exited (MSG_MISSING "other.json")
  /\ PlotData_init (np := sample_numpy) sample_load {[ "plot.json" := "not json" ]} "plot.json"
     = Exited MSG_INVALID.
Proof.
  split.
  - apply (proj1 (loader_outcomes (np := sample_numpy) sample_load
                    {[ "plot.json" := "not json" ]} "other.json")).
    vm_compute. reflexivity.
  - apply (proj1 (proj2 (loader_outcomes (np := sample_numpy) sample_load
                           {[ "plot.json" := "not json" ]} "plot.json")) "not json").
    + vm_compute. reflexivity.
    + reflexivity.
Defined.

(** C6 as stated fails: a file holding the valid JSON text [5] ends the
    load with an uncaught [TypeError], which is neither of the two
    reported errors; so does any object with a number under
    [x_ticks]. *)
Lemma loader_third_failure :
  PlotData_init (np := sample_numpy) sample_load {[ "plot.json" := "5" ]} "plot.json"
  = Uncaught TypeError
  /\ process_json (np := sample_numpy) init_attributes (JObj [("x_ticks", JInt 5)])
     = Raise TypeError.
Proof. split; vm_compute; reflexivity. Qed.

(** A file of valid JSON whose fill has ragged x values: when the
    array conversion refuses them with [ValueError], as the stand-in
    does, the program ends with the invalid-format message. *)
Example ragged_fill_reported_invalid :
  process_json (np := sample_numpy) init_attributes ragged_fill = Raise ValueError
  /\ PlotData_init (np := sample_numpy) (fun _ => Ok ragged_fill)
       {[ "plot.json" := "valid JSON text" ]} "plot.json"
     = Exited MSG_INVALID.
Proof. split; vm_compute; reflexivity. Qed.

(** ** Minor ticks *)

(** C9, as the code has it.  On each axis the null minor-tick locator
    is installed exactly when the axis's minor-tick flag is false, and
    the automatic one exactly when that flag and the minor-grid flag are
    both set; with the flag set and the minor grid off no locator is
    installed at all. *)
Theorem minor_ticks_calls (self : PlotData) :
  let calls := plot_minor_ticks self in
  (In (set_minor_locator XAxis NullLocator) calls <-> x_ticks_minor self = false)
  /\ (In (set_minor_locator XAxis AutoMinorLocator) calls
       <-> x_ticks_minor self = true /\ grid_minor self = true)
  /\ (In (set_minor_locator YAxis NullLocator) calls <-> y_ticks_minor self = false)
  /\ (In (set_minor_locator YAxis AutoMinorLocator) calls
       <-> y_ticks_minor self = true /\ grid_minor self = true)
  /\ (x_ticks_minor self = true -> y_ticks_minor self = true ->
       grid_minor self = false -> calls = []).
Proof.
  unfold plot_minor_ticks, minor_locator_calls.
  destruct (x_ticks_minor self), (y_ticks_minor self), (grid_minor self); simpl;
    intuition congruence.
Qed.

Lemma minor_ticks_calls_witness :
  plot_minor_ticks (set_x_ticks_minor true (set_y_ticks_minor true init_attributes)) = [].
Proof.
  apply (proj2 (proj2 (proj2 (proj2 (minor_ticks_calls
           (set_x_ticks_minor true (set_y_ticks_minor true init_attributes)))))));
    reflexivity.
Defined.

(** C9 as stated fails: with both minor-tick flags set and the minor
    grid off, as loaded from a document that says so, no null locator
    is installed on either axis. *)
Lemma minor_ticks_not_suppressed :
  exists cfg,
    process_json (np := sample_numpy) init_attributes (only_flags (JInt 1) (JInt 1) (JInt 0) (JInt 0)) = Ok cfg
    /\ (x_ticks_minor cfg && grid_minor cfg) = false
    /\ ~ In (set_minor_locator XAxis NullLocator) (plot_minor_ticks cfg)
    /\ plot_minor_ticks cfg = [].
Proof.
  eexists. split; [reflexivity|]. repeat split. intros [].
Qed.

(** ** Axis limits *)

Lemma lim_calls_spec (set_lim : option json -> option json -> ax_call)
    (lim : option (list json)) (scale : json) :
  lim <> Some [] -> lim_calls set_lim lim scale = Ok (limit_calls set_lim scale lim).
Proof.
  intros Hne. destruct lim as [[|lo [|hi rest]]|]; try congruence; try reflexivity;
    unfold lim_calls, lower_bound, limit_calls, lower_of, tuple_get, and_then, bind;
    cbn [nth_error List.length Nat.ltb Nat.leb Nat.eqb];
    destruct (Py.eq_str scale "log"), (Py.eq_int lo 0); reflexivity.
Qed.

(** C8. For each axis with a limit: a one-element limit passes only
    the lower bound, a two-element limit passes both bounds, and on an
    axis whose scale is ["log"] a lower bound equal to [0] is replaced
    by [1]. *)
Theorem axis_limits (self : PlotData) :
  x_lim self <> Some [] -> y_lim self <> Some [] ->
  plot_limits self
  = Ok (limit_calls set_xlim (x_scale self) (x_lim self)
        ++ limit_calls set_ylim (y_scale self) (y_lim self))
  /\ (forall set_lim scale lo,
        limit_calls set_lim scale (Some [lo]) = [set_lim (Some (lower_of scale lo)) None])
  /\ (forall set_lim scale lo hi,
        limit_calls set_lim scale (Some [lo; hi])
        = [set_lim (Some (lower_of scale lo)) (Some hi)])
  /\ (forall lo, Py.eq_int lo 0 = true -> lower_of (JStr "log") lo = JInt 1)
  /\ (forall scale lo, Py.eq_int lo 0 = false -> lower_of scale lo = lo)
  /\ (forall scale lo, scale <> JStr "log" -> lower_of scale lo = lo).
Proof.
  intros Hx Hy. split; [|repeat split].
  - unfold plot_limits. rewrite !lim_calls_spec by assumption. reflexivity.
  - intros lo H. unfold lower_of. simpl. rewrite H. reflexivity.
  - intros scale lo H. unfold lower_of. rewrite H, andb_false_r. reflexivity.
  - intros scale lo H. unfold lower_of.
    destruct (Py.eq_str scale "log") eqn:E; [|reflexivity].
    apply eq_str_true in E. contradiction.
Qed.

Lemma axis_limits_witness :
  plot_limits (set_x_lim (Some [JInt 0; JInt 9])
                 (set_x_scale (JStr "log") (set_y_lim (Some [JFloat 0%float]) init_attributes)))
  = Ok [set_xlim (Some (JInt 1)) (Some (JInt 9)); set_ylim (Some (JFloat 0%float)) None].
Proof.
  apply (proj1 (axis_limits
           (set_x_lim (Some [JInt 0; JInt 9])
              (set_x_scale (JStr "log") (set_y_lim (Some [JFloat 0%float]) init_attributes)))
           ltac:(discriminate) ltac:(discriminate))).
Defined.

(** ** Series selection *)

Lemma fold_filter_step_named (n : string) (strings : list string) (start : bool) :
  fold_result (filter_step (JStr n)) strings start
  = Ok (start || existsb (fun s => Py.contains s n) strings).
Proof.
  revert start. induction strings as [|s strings IH]; intros start; simpl.
  - rewrite orb_false_r. reflexivity.
  - rewrite IH. destruct (Py.contains s n), start; reflexivity.
Qed.

Lemma fold_regex_step_named {regex : Type} (re_match : regex -> string -> bool)
    (n : string) (rs : list regex) (start : bool) :
  fold_result (regex_step regex re_match (JStr n)) rs start
  = Ok (start || existsb (fun r => re_match r n) rs).
Proof.
  revert start. induction rs as [|r rs IH]; intros start; simpl.
  - rewrite orb_false_r. reflexivity.
  - rewrite IH. destruct (re_match r n), start; reflexivity.
Qed.

(** Away from the empty pattern list, a named series is selected as
    described. *)
Lemma plot_series_named {regex : Type} (re_compile : string -> option regex)
    (re_match : regex -> string -> bool)
    (series_filter series_regex : option (list string))
    (rs : option (list regex)) (series : Series) (n : string) :
  s_name series = JStr n ->
  series_regex <> Some [] ->
  compile_filters regex re_compile series_regex = Ok rs ->
  plot_series regex re_match series_filter series_regex rs series
  = Ok (selected re_match series_filter rs n).
Proof.
  intros Hn Hne Hc. unfold plot_series, selected. rewrite Hn.
  destruct series_regex as [[|p ps]|]; [congruence | |].
  - simpl in Hc. apply bind_Ok in Hc as (l & _ & [= <-]).
    destruct series_filter as [strings|]; simpl.
    + rewrite fold_filter_step_named. simpl.
      destruct (existsb (fun s => Py.contains s n) strings); simpl; [reflexivity|].
      rewrite fold_regex_step_named. reflexivity.
    + rewrite fold_regex_step_named. reflexivity.
  - injection Hc as <-.
    destruct series_filter as [strings|]; simpl; [|reflexivity].
    rewrite fold_filter_step_named. simpl. rewrite orb_false_r. reflexivity.
Qed.

(** C3 at its failing input.  With the pattern list given but empty (and
    no name filter, or an empty one), nothing is compiled,
    [filter_expressions] stays [None], and the loop over it raises
    [TypeError] at the first series instead of leaving the series out. *)
Theorem empty_regex_list_raises (regex : Type) (re_compile : string -> option regex)
    (re_match : regex -> string -> bool)
    (self : PlotData) (series : Series) (rest : list Series) :
  compile_filters regex re_compile (Some []) = Ok None
  /\ plot_series regex re_match None (Some []) None series = Raise TypeError
  /\ plot_series regex re_match (Some []) (Some []) None series = Raise TypeError
  /\ plot_all_series regex re_compile re_match
       (set_series_data (Some (series :: rest)) self) None (Some [])
     = Raise TypeError.
Proof. repeat split. Qed.

(** The same call with the pattern list absent and the name filter
    empty leaves every series out, without error. *)
Example empty_name_filter (regex : Type) (re_match : regex -> string -> bool)
    (series : Series) :
  plot_series regex re_match (Some []) None None series = Ok false.
Proof. reflexivity. Qed.

(** ** Output *)

Lemma ask_retries (retries : list string) (answer : string) (rest : list string)
    (w : World) :
  forallb rejected retries = true ->
  says_no answer = true ->
  ask (retries ++ answer :: rest) w
  = (Ok 0, mkWorld (files w) rest
             (stdout w ++ List.repeat MSG_RESPOND (List.length retries)) (shown w)).
Proof.
  intros Hr Ha. revert w. induction retries as [|line retries IH]; intros w.
  - simpl. unfold says_no in Ha.
    destruct (strtobool (lower answer)) as [[| |]|]; try discriminate Ha.
    rewrite app_nil_r. reflexivity.
  - simpl in Hr. apply andb_prop in Hr as [Hl Hr].
    cbn [app ask]. unfold rejected in Hl.
    destruct (strtobool (lower line)) as [|[]]; try discriminate Hl.
    rewrite (IH Hr). simpl. rewrite <- app_assoc. reflexivity.
Qed.

(** C7. With an output path whose file exists, no force flag, and an
    answer of no at the prompt (after any number of lines the prompt
    does not understand), the files are left as they were, the last
    thing written is the report that the figure was not saved, and the
    call returns normally. *)
Theorem protected_file_not_saved {plt : Pyplot} (image f : string) (dpi : option Z)
    (w : World) (old : string) (retries : list string) (answer : string)
    (rest : list string) :
  files w !! f = Some old ->
  stdin w = retries ++ answer :: rest ->
  forallb rejected retries = true ->
  says_no answer = true ->
  plot_output image (Some f) dpi false w
  = (Ok tt,
     mkWorld (files w) rest
       (stdout w ++ [(MSG_EXISTS f ++ " [y/n]" ++ newline)%string]
          ++ List.repeat MSG_RESPOND (List.length retries)
          ++ [(MSG_NOT_SAVED ++ newline)%string])
       (shown w)).
Proof.
  intros Hf Hin Hr Ha.
  unfold plot_output, file_overwrite_check, user_yes_no_query. rewrite Hf.
  cbn [stdin write]. rewrite Hin, (ask_retries _ _ _ _ Hr Ha).
  cbn. unfold print, write. cbn. rewrite <- !app_assoc. reflexivity.
Qed.

Lemma protected_file_not_saved_witness :
  plot_output (plt := sample_pyplot) "new image" (Some "fig.png") None false
    (mkWorld {[ "fig.png" := "old image" ]} ["maybe"; "No"; "y"] [] false)
  = (Ok tt,
     mkWorld {[ "fig.png" := "old image" ]} ["y"]
       ([] ++ [(MSG_EXISTS "fig.png" ++ " [y/n]" ++ newline)%string]
           ++ List.repeat MSG_RESPOND (List.length ["maybe"%string])
           ++ [(MSG_NOT_SAVED ++ newline)%string])
       false).
Proof.
  refine (protected_file_not_saved (plt := sample_pyplot) "new image" "fig.png" None
            (mkWorld {[ "fig.png" := "old image" ]} ["maybe"; "No"; "y"] [] false)
            "old image" ["maybe"%string] "No" ["y"%string] _ _ _ _).
  - vm_compute. reflexivity.
  - reflexivity.
  - reflexivity.
  - reflexivity.
Defined.

(** With the force flag, or with an answer of yes, the file is
    replaced. *)
Example forced_save :
  files (snd (plot_output (plt := sample_pyplot) "new image" (Some "fig.png") None true
                (mkWorld {[ "fig.png" := "old image" ]} [] [] false)))
  !! "fig.png" = Some "new image".
Proof. vm_compute. reflexivity. Qed.

(** * Further properties of the loader *)

Lemma assign_if_keeps_proj {V T : Type} (proj : PlotData -> T) (c : result bool)
    (v : result V) (set : V -> PlotData -> PlotData) (s s' : PlotData) :
  (forall x t, proj (set x t) = proj t) ->
  assign_if c v set s = Ok s' -> proj s' = proj s.
Proof.
  intros Hset H. apply assign_if_inv in H as [[_ ->]|[_ (x & _ & ->)]]; auto.
Qed.

Ltac keeps_proj proj H :=
  unfold copy_key, copy_nonempty, set_flag in H;
  apply (assign_if_keeps_proj proj) in H; [| intros; reflexivity].

(** Split a completed [process_json] into its steps and, for the
    attribute [proj], reduce every step that leaves it alone to an
    equation between the states before and after. *)
Ltac track proj H :=
  unfold process_json in H;
  do 25 (let s := fresh "s" in let Hs := fresh "Hs" in
         next_step H s Hs; try keeps_proj proj Hs);
  try keeps_proj proj H.

Ltac chain proj :=
  repeat match goal with
         | E : proj _ = proj _ |- _ => rewrite E; clear E
         end.

Lemma copy_key_obj (kvs : list (string * json)) (k : string)
    (set : json -> PlotData -> PlotData) (s : PlotData) :
  copy_key (JObj kvs) k set s
  = Ok (match Py.assoc k kvs with Some v => set v s | None => s end).
Proof.
  unfold copy_key, assign_if. simpl. destruct (Py.assoc k kvs); reflexivity.
Qed.

Ltac copied proj k :=
  let H := fresh "H" in
  intros H; track proj H; chain proj;
  match goal with
  | Hc : copy_key _ _ _ _ = Ok _ |- _ => rewrite copy_key_obj in Hc; injection Hc as <-
  end;
  unfold dict_get; destruct (Py.assoc k _); simpl; chain proj; reflexivity.

(** A completed load read an object. *)
Lemma loaded_is_object {np : Numpy} (self cfg : PlotData) (raw_json : json) :
  process_json self raw_json = Ok cfg -> exists kvs, raw_json = JObj kvs.
Proof.
  intros H.
  apply process_json_flags in H as (b1 & b2 & b3 & b4 & G1 & _).
  destruct raw_json as [| | | |s|l|kvs];
    try (unfold flag_given in G1; simpl in G1; discriminate G1).
  - unfold flag_given in G1; simpl in G1.
    destruct (Py.contains "x_ticks_minor" s); discriminate G1.
  - unfold flag_given in G1; simpl in G1.
    destruct (existsb (Py.is_str "x_ticks_minor") l); discriminate G1.
  - eauto.
Qed.

(** X1. A load that completes read an object that carries all four
    flag keys: every other document, and every object that lacks one of
    them, fails. *)
Theorem load_needs_flag_keys {np : Numpy} (self cfg : PlotData) (raw_json : json) :
  process_json self raw_json = Ok cfg ->
  exists kvs,
    raw_json = JObj kvs
    /\ has_key kvs "x_ticks_minor" /\ has_key kvs "y_ticks_minor"
    /\ has_key kvs "grid_major" /\ has_key kvs "grid_minor".
Proof.
  intros H.
  apply process_json_flags in H as (b1 & b2 & b3 & b4 & G1 & G2 & G3 & G4 & _).
  destruct raw_json as [| | | |s|l|kvs];
    try (unfold flag_given in G1; simpl in G1; discriminate G1).
  - unfold flag_given in G1; simpl in G1.
    destruct (Py.contains "x_ticks_minor" s); discriminate G1.
  - unfold flag_given in G1; simpl in G1.
    destruct (existsb (Py.is_str "x_ticks_minor") l); discriminate G1.
  - exists kvs. rewrite flag_given_obj in G1, G2, G3, G4. unfold has_key.
    split; [reflexivity|].
    destruct (Py.assoc "x_ticks_minor" kvs); [|discriminate G1].
    destruct (Py.assoc "y_ticks_minor" kvs); [|discriminate G2].
    destruct (Py.assoc "grid_major" kvs); [|discriminate G3].
    destruct (Py.assoc "grid_minor" kvs); [|discriminate G4].
    eauto 10.
Qed.

Lemma load_needs_flag_keys_witness :
  exists kvs,
    only_flags (JInt 0) (JStr "off") JNull (JList []) = JObj kvs
    /\ has_key kvs "x_ticks_minor" /\ has_key kvs "y_ticks_minor"
    /\ has_key kvs "grid_major" /\ has_key kvs "grid_minor".
Proof.
  apply (load_needs_flag_keys (np := sample_numpy) init_attributes init_attributes
           (only_flags (JInt 0) (JStr "off") JNull (JList []))).
  reflexivity.
Defined.

(** X2. When the load of an object completes, each plainly copied
    attribute (title, labels, legend offset, scales, log bases and the
    five font settings) holds the value under its key whatever its type,
    [null] included, and keeps the value it had when the key is
    absent. *)
Theorem copied_keys {np : Numpy} (self cfg : PlotData) (kvs : list (string * json)) :
  process_json self (JObj kvs) = Ok cfg ->
  title cfg = dict_get kvs "title" (title self)
  /\ x_label cfg = dict_get kvs "x_label" (x_label self)
  /\ y_label cfg = dict_get kvs "y_label" (y_label self)
  /\ legend_y_offset cfg = dict_get kvs "legend_y_offset" (legend_y_offset self)
  /\ x_scale cfg = dict_get kvs "x_scale" (x_scale self)
  /\ y_scale cfg = dict_get kvs "y_scale" (y_scale self)
  /\ x_log_base cfg = dict_get kvs "x_log_base" (x_log_base self)
  /\ y_log_base cfg = dict_get kvs "y_log_base" (y_log_base self)
  /\ fontsize_title cfg = dict_get kvs "fontsize_title" (fontsize_title self)
  /\ fontsize_label cfg = dict_get kvs "fontsize_label" (fontsize_label self)
  /\ fontsize_legend cfg = dict_get kvs "fontsize_legend" (fontsize_legend self)
  /\ fontweight_title cfg = dict_get kvs "fontweight_title" (fontweight_title self)
  /\ labelsize_tick cfg = dict_get kvs "labelsize_tick" (labelsize_tick self).
Proof.
  intros H. repeat split.
  - revert H. copied title "title".
  - revert H. copied x_label "x_label".
  - revert H. copied y_label "y_label".
  - revert H. copied legend_y_offset "legend_y_offset".
  - revert H. copied x_scale "x_scale".
  - revert H. copied y_scale "y_scale".
  - revert H. copied x_log_base "x_log_base".
  - revert H. copied y_log_base "y_log_base".
  - revert H. copied fontsize_title "fontsize_title".
  - revert H. copied fontsize_label "fontsize_label".
  - revert H. copied fontsize_legend "fontsize_legend".
  - revert H. copied fontweight_title "fontweight_title".
  - revert H. copied labelsize_tick "labelsize_tick".
Qed.

Lemma copied_keys_witness :
  exists cfg,
    process_json (np := sample_numpy) init_attributes
      (JObj [("title", JNull); ("x_scale", JInt 3); ("x_ticks_minor", JInt 0);
             ("y_ticks_minor", JInt 0); ("grid_major", JInt 0); ("grid_minor", JInt 0)])
    = Ok cfg
    /\ title cfg = JNull /\ x_scale cfg = JInt 3 /\ y_log_base cfg = JInt 10.
Proof.
  eexists. split; [reflexivity|].
  pose proof (copied_keys (np := sample_numpy) init_attributes _
    [("title", JNull); ("x_scale", JInt 3); ("x_ticks_minor", JInt 0);
     ("y_ticks_minor", JInt 0); ("grid_major", JInt 0); ("grid_minor", JInt 0)]
    eq_refl) as (Ht & _ & _ & _ & Hs & _ & _ & Hb & _).
  split; [exact Ht | split; [exact Hs | exact Hb]].
Defined.

Lemma copy_nonempty_obj (kvs : list (string * json)) (k : string)
    (set : json -> PlotData -> PlotData) (s s' : PlotData) :
  copy_nonempty (JObj kvs) k set s = Ok s' ->
  match Py.assoc k kvs with
  | None => s' = s
  | Some v => exists n, Py.len v = Ok n /\ s' = if Nat.ltb 0 n then set v s else s
  end.
Proof.
  unfold copy_nonempty, assign_if, nonempty_at. simpl.
  destruct (Py.assoc k kvs) as [v|]; simpl; [|intros [= <-]; reflexivity].
  destruct (Py.len v) as [n|e]; simpl; [|discriminate].
  intros H. exists n. split; [reflexivity|].
  destruct (Nat.ltb 0 n); injection H as <-; reflexivity.
Qed.


Lemma lim_obj (kvs : list (string * json)) (k : string)
    (set : option (list json) -> PlotData -> PlotData) (s : PlotData) :
  assign_if (lim_given (JObj kvs) k) (tuple_at (JObj kvs) k) set s
  = Ok (match Py.assoc k kvs with
        | Some (JList (a :: l)) => set (Some (a :: l)) s
        | _ => s
        end).
Proof.
  unfold assign_if, lim_given, tuple_at, nonempty_at. simpl.
  destruct (Py.assoc k kvs) as [v|]; simpl; [|reflexivity].
  destruct v as [| | | | |[|a l]|]; reflexivity.
Qed.



Lemma x_lim_loaded {np : Numpy} (self cfg : PlotData) (kvs : list (string * json)) :
  process_json self (JObj kvs) = Ok cfg ->
  x_lim cfg = match Py.assoc "x_lim" kvs with
              | Some (JList (a :: l)) => Some (a :: l)
              | _ => x_lim self
              end.
Proof.
  intros H. track x_lim H. chain x_lim.
  rewrite lim_obj in Hs4. injection Hs4 as <-.
  destruct (Py.assoc "x_lim" kvs) as [[| | | | |[|a l]|]|];
    simpl; chain x_lim; reflexivity.
Qed.

Lemma y_lim_loaded {np : Numpy} (self cfg : PlotData) (kvs : list (string * json)) :
  process_json self (JObj kvs) = Ok cfg ->
  y_lim cfg = match Py.assoc "y_lim" kvs with
              | Some (JList (a :: l)) => Some (a :: l)
              | _ => y_lim self
              end.
Proof.
  intros H. track y_lim H. chain y_lim.
  rewrite lim_obj in Hs5. injection Hs5 as <-.
  destruct (Py.assoc "y_lim" kvs) as [[| | | | |[|a l]|]|];
    simpl; chain y_lim; reflexivity.
Qed.

(** X4. An axis limit is stored, as a tuple, only for a key that holds
    a non-empty list; any other value under the key (an empty list, a
    number, a string, [null], an object) is passed over without error
    and the previous limit stays. *)
Theorem limits_loaded {np : Numpy} (self cfg : PlotData) (kvs : list (string * json)) :
  process_json self (JObj kvs) = Ok cfg ->
  x_lim cfg = match Py.assoc "x_lim" kvs with
              | Some (JList (a :: l)) => Some (a :: l)
              | _ => x_lim self
              end
  /\ y_lim cfg = match Py.assoc "y_lim" kvs with
                 | Some (JList (a :: l)) => Some (a :: l)
                 | _ => y_lim self
                 end.
Proof.
  intros H. split; [apply x_lim_loaded | apply y_lim_loaded]; exact H.
Qed.

Lemma limits_loaded_witness :
  exists cfg,
    process_json (np := sample_numpy) init_attributes
      (JObj [("x_lim", JList [JInt 2]); ("y_lim", JStr "0,1"); ("x_ticks_minor", JInt 0);
             ("y_ticks_minor", JInt 0); ("grid_major", JInt 0); ("grid_minor", JInt 0)])
    = Ok cfg
    /\ x_lim cfg = Some [JInt 2] /\ y_lim cfg = None.
Proof.
  eexists. split; [reflexivity|].
  apply (limits_loaded (np := sample_numpy) init_attributes _
    [("x_lim", JList [JInt 2]); ("y_lim", JStr "0,1"); ("x_ticks_minor", JInt 0);
     ("y_ticks_minor", JInt 0); ("grid_major", JInt 0); ("grid_minor", JInt 0)] eq_refl).
Defined.

Lemma limit_calls_shape (set_lim : option json -> option json -> ax_call)
    (scale : json) (lim : option (list json)) :
  lim <> Some [] ->
  (lim = None /\ limit_calls set_lim scale lim = [])
  \/ (lim <> None /\ exists low high, limit_calls set_lim scale lim = [set_lim low high]).
Proof.
  intros Hne. destruct lim as [[|lo [|hi rest]]|]; simpl.
  - congruence.
  - right. split; [discriminate | eauto].
  - right. split; [discriminate | eauto].
  - left. auto.
Qed.

(** X5. The limits of a loaded configuration are never the empty
    tuple, so the limit stage of [plot] cannot fail on it: it makes one
    [set_xlim] call when there is an x limit and none otherwise, then
    one [set_ylim] call when there is a y limit and none otherwise. *)
Theorem limits_after_load {np : Numpy} (cfg : PlotData) (raw_json : json) :
  process_json init_attributes raw_json = Ok cfg ->
  x_lim cfg <> Some [] /\ y_lim cfg <> Some []
  /\ exists xs ys,
       plot_limits cfg = Ok (xs ++ ys)
       /\ ((x_lim cfg = None /\ xs = [])
           \/ (x_lim cfg <> None /\ exists left right, xs = [set_xlim left right]))
       /\ ((y_lim cfg = None /\ ys = [])
           \/ (y_lim cfg <> None /\ exists bottom top, ys = [set_ylim bottom top])).
Proof.
  intros H. destruct (loaded_is_object _ _ _ H) as [kvs ->].
  pose proof (x_lim_loaded _ _ _ H) as Hx. pose proof (y_lim_loaded _ _ _ H) as Hy.
  assert (Nx : x_lim cfg <> Some []).
  { rewrite Hx. destruct (Py.assoc "x_lim" kvs) as [[| | | | |[|a l]|]|]; discriminate. }
  assert (Ny : y_lim cfg <> Some []).
  { rewrite Hy. destruct (Py.assoc "y_lim" kvs) as [[| | | | |[|a l]|]|]; discriminate. }
  split; [exact Nx | split; [exact Ny|]].
  exists (limit_calls set_xlim (x_scale cfg) (x_lim cfg)),
         (limit_calls set_ylim (y_scale cfg) (y_lim cfg)).
  split; [|split].
  - unfold plot_limits. rewrite !lim_calls_spec by assumption. reflexivity.
  - apply limit_calls_shape, Nx.
  - apply limit_calls_shape, Ny.
Qed.

Lemma limits_after_load_witness :
  exists xs ys,
    plot_limits (set_x_lim (Some [JInt 2]) init_attributes) = Ok (xs ++ ys)
    /\ ((x_lim (set_x_lim (Some [JInt 2]) init_attributes) = None /\ xs = [])
        \/ (x_lim (set_x_lim (Some [JInt 2]) init_attributes) <> None
            /\ exists left right, xs = [set_xlim left right]))
    /\ ((y_lim (set_x_lim (Some [JInt 2]) init_attributes) = None /\ ys = [])
        \/ (y_lim (set_x_lim (Some [JInt 2]) init_attributes) <> None
            /\ exists bottom top, ys = [set_ylim bottom top])).
Proof.
  apply (limits_after_load (np := sample_numpy) (set_x_lim (Some [JInt 2]) init_attributes)
    (JObj [("x_lim", JList [JInt 2]); ("y_lim", JStr "0,1"); ("x_ticks_minor", JInt 0);
           ("y_ticks_minor", JInt 0); ("grid_major", JInt 0); ("grid_minor", JInt 0)])
    eq_refl).
Defined.

Ltac nonempty proj :=
  let H := fresh "H" in
  intros H; track proj H; chain proj;
  match goal with
  | Hc : copy_nonempty _ ?k _ _ = Ok _ |- _ =>
      apply copy_nonempty_obj in Hc; unfold taken_if_nonempty;
      destruct (Py.assoc k _) as [v|];
      [ destruct Hc as (n & Hn & ->); exists n; (split; [exact Hn|]);
        destruct (Nat.ltb 0 n); simpl; chain proj; reflexivity
      | subst; chain proj; reflexivity ]
  end.

(** X6. Tick positions and tick labels are taken only when their key
    holds something of positive length: an empty list keeps the previous
    value, and a completed load never saw a value without a length (a
    number, a boolean, [null]) under one of these four keys. *)
Theorem ticks_loaded {np : Numpy} (self cfg : PlotData) (kvs : list (string * json)) :
  process_json self (JObj kvs) = Ok cfg ->
  taken_if_nonempty kvs "x_ticks" (x_ticks self) (x_ticks cfg)
  /\ taken_if_nonempty kvs "y_ticks" (y_ticks self) (y_ticks cfg)
  /\ taken_if_nonempty kvs "x_ticks_labels" (x_ticks_labels self) (x_ticks_labels cfg)
  /\ taken_if_nonempty kvs "y_ticks_labels" (y_ticks_labels self) (y_ticks_labels cfg).
Proof.
  intros H. repeat split.
  - revert H. nonempty x_ticks.
  - revert H. nonempty y_ticks.
  - revert H. nonempty x_ticks_labels.
  - revert H. nonempty y_ticks_labels.
Qed.

Lemma ticks_loaded_witness :
  exists cfg,
    process_json (np := sample_numpy) init_attributes
      (JObj [("x_ticks", JList []); ("y_ticks", JList [JInt 1; JInt 2]);
             ("x_ticks_minor", JInt 0); ("y_ticks_minor", JInt 0);
             ("grid_major", JInt 0); ("grid_minor", JInt 0)])
    = Ok cfg
    /\ taken_if_nonempty
         [("x_ticks", JList []); ("y_ticks", JList [JInt 1; JInt 2]);
          ("x_ticks_minor", JInt 0); ("y_ticks_minor", JInt 0);
          ("grid_major", JInt 0); ("grid_minor", JInt 0)]
         "x_ticks" JNull (x_ticks cfg)
    /\ x_ticks cfg = JNull /\ y_ticks cfg = JList [JInt 1; JInt 2].
Proof.
  eexists. split; [reflexivity|]. split; [|split; reflexivity].
  apply (ticks_loaded (np := sample_numpy) init_attributes _
    [("x_ticks", JList []); ("y_ticks", JList [JInt 1; JInt 2]);
     ("x_ticks_minor", JInt 0); ("y_ticks_minor", JInt 0);
     ("grid_major", JInt 0); ("grid_minor", JInt 0)] eq_refl).
Defined.

(** ** Series and fills as loaded *)

Lemma map_result_Forall2 {A B : Type} (f : A -> result B) (l : list A) (l' : list B) :
  map_result f l = Ok l' -> Forall2 (fun a b => f a = Ok b) l l'.
Proof.
  revert l'. induction l as [|a l IH]; intros l' H; simpl in H.
  - injection H as <-. constructor.
  - apply bind_Ok in H as (b & Hb & H). apply bind_Ok in H as (bs & Hbs & [= <-]).
    constructor; [exact Hb | apply IH, Hbs].
Qed.

Lemma process_series_aligned (series : json) (s : Series) :
  process_series series = Ok s -> series_aligned s.
Proof.
  unfold process_series. intros H.
  do 8 (let a := fresh "a" in let Ha := fresh "Ha" in
        apply bind_Ok in H as (a & Ha & H)).
  injection H as <-. unfold series_aligned. simpl.
  destruct a5.
  - apply bind_Ok in Ha6 as (d & _ & Ha6). apply bind_Ok in Ha6 as (vs & _ & [= <-]).
    apply series_points_aligned.
  - injection Ha6 as <-. reflexivity.
Qed.

Lemma process_fill_aligned {np : Numpy} (fill : json) (f : Fill) :
  process_fill fill = Ok f -> fill_aligned f.
Proof.
  unfold process_fill. intros H.
  apply bind_Ok in H as (color & _ & H). apply bind_Ok in H as (has & _ & H).
  apply bind_Ok in H as ([[x y0] y1] & Ht & H).
  apply bind_Ok in H as (ax & Hx & H). apply bind_Ok in H as (ay0 & Hy0 & H).
  apply bind_Ok in H as (ay1 & Hy1 & [= <-]).
  apply np_array_length in Hx, Hy0, Hy1.
  unfold fill_aligned. simpl. rewrite Hx, Hy0, Hy1.
  destruct has.
  - apply bind_Ok in Ht as (d & _ & Ht). apply bind_Ok in Ht as (vs & _ & Ht).
    unfold fill_points in Ht.
    apply (fold_result_invariant
             (fun t => List.length (fst (fst t)) = List.length (snd (fst t))
                       /\ List.length (snd (fst t)) = List.length (snd t))
             fill_point vs) in Ht; [exact Ht | | simpl; auto].
    intros [[a b] c] v [[a' b'] c'] Hacc Hstep. simpl in *.
    eapply fill_point_aligned; eauto.
  - injection Ht as <- <- <-. auto.
Qed.

Lemma Forall2_Forall_r {A B : Type} (R : A -> B -> Prop) (P : B -> Prop)
    (l : list A) (l' : list B) :
  (forall a b, R a b -> P b) -> Forall2 R l l' -> Forall P l'.
Proof. intros HR H. induction H; constructor; eauto. Qed.

(** X7. Whatever the document, every series of a loaded configuration
    has as many x as y coordinates, and every fill has as many x as
    lower and upper y values: shapes that are skipped are skipped in all
    sequences at once. *)
Theorem loaded_data_aligned {np : Numpy} (cfg : PlotData) (raw_json : json) :
  process_json init_attributes raw_json = Ok cfg ->
  (forall l, series_data cfg = Some l -> Forall series_aligned l)
  /\ (forall l, fill_data cfg = Some l -> Forall fill_aligned l).
Proof.
  intros H. split; intros l Hl.
  - track series_data H. revert Hl. chain series_data.
    apply assign_if_inv in Hs18 as [[_ ->]|[_ (x & Hx & ->)]].
    + chain series_data. discriminate.
    + simpl. intros [= ->].
      apply bind_Ok in Hx as (v & _ & Hx). apply bind_Ok in Hx as (l' & Hx & [= <-]).
      unfold process_series_data in Hx. apply bind_Ok in Hx as (entries & _ & Hx).
      apply map_result_Forall2 in Hx.
      eapply Forall2_Forall_r; [|exact Hx]. intros a b. apply process_series_aligned.
  - track fill_data H. revert Hl. chain fill_data.
    apply assign_if_inv in Hs19 as [[_ ->]|[_ (x & Hx & ->)]].
    + chain fill_data. discriminate.
    + simpl. intros [= ->].
      apply bind_Ok in Hx as (v & _ & Hx). apply bind_Ok in Hx as (l' & Hx & [= <-]).
      unfold process_fill_data in Hx. apply bind_Ok in Hx as (entries & _ & Hx).
      apply map_result_Forall2 in Hx.
      eapply Forall2_Forall_r; [|exact Hx]. intros a b. apply process_fill_aligned.
Qed.

Lemma loaded_data_aligned_witness :
  exists cfg,
    process_json (np := sample_numpy) init_attributes
      (JObj [("x_ticks_minor", JInt 0); ("y_ticks_minor", JInt 0);
             ("grid_major", JInt 0); ("grid_minor", JInt 0);
             ("series", JList [JObj [("data", JList [JInt 4; JStr "gap"; JList [JInt 7; JInt 8]])]])])
    = Ok cfg
    /\ (forall l, series_data cfg = Some l -> Forall series_aligned l).
Proof.
  eexists. split; [reflexivity|].
  apply (loaded_data_aligned (np := sample_numpy) _
    (JObj [("x_ticks_minor", JInt 0); ("y_ticks_minor", JInt 0);
           ("grid_major", JInt 0); ("grid_minor", JInt 0);
           ("series", JList [JObj [("data", JList [JInt 4; JStr "gap"; JList [JInt 7; JInt 8]])]])])
    eq_refl).
Defined.

Lemma series_data_loaded {np : Numpy} (cfg : PlotData) (kvs : list (string * json)) :
  process_json init_attributes (JObj kvs) = Ok cfg ->
  match Py.assoc "series" kvs with
  | None => series_data cfg = None
  | Some v => exists l, process_series_data v = Ok l /\ series_data cfg = Some l
  end.
Proof.
  intros H. track series_data H. chain series_data.
  apply assign_if_inv in Hs18 as [[Hc ->]|[Hc (x & Hx & ->)]]; simpl in Hc.
  - destruct (Py.assoc "series" kvs); [discriminate Hc|].
    chain series_data. reflexivity.
  - simpl in Hx. destruct (Py.assoc "series" kvs) as [v|]; [|discriminate Hc].
    simpl in Hx. apply bind_Ok in Hx as (l & Hl & [= <-]). eauto.
Qed.

(** X8. The loaded configuration has one series per entry of the
    [series] value, in the order of the entries; without a [series] key
    it has none at all ([None], not the empty list). *)
Theorem series_per_entry {np : Numpy} (cfg : PlotData) (kvs : list (string * json)) :
  process_json init_attributes (JObj kvs) = Ok cfg ->
  match Py.assoc "series" kvs with
  | None => series_data cfg = None
  | Some v =>
      exists entries l,
        Py.iter v = Ok entries /\ series_data cfg = Some l
        /\ List.length l = List.length entries
        /\ Forall2 (fun e s => process_series e = Ok s) entries l
  end.
Proof.
  intros H. apply series_data_loaded in H.
  destruct (Py.assoc "series" kvs) as [v|]; [|exact H].
  destruct H as (l & Hl & Hs). unfold process_series_data in Hl.
  apply bind_Ok in Hl as (entries & He & Hl). apply map_result_Forall2 in Hl.
  exists entries, l. repeat split; try assumption.
  symmetry. eapply Forall2_length. exact Hl.
Qed.

Lemma series_per_entry_witness :
  exists cfg,
    process_json (np := sample_numpy) init_attributes
      (only_flags (JInt 0) (JInt 0) (JInt 0) (JInt 0)) = Ok cfg
    /\ series_data cfg = None.
Proof.
  eexists. split; [reflexivity|].
  apply (series_per_entry (np := sample_numpy) _
    [("x_ticks_minor", JInt 0); ("y_ticks_minor", JInt 0);
     ("grid_major", JInt 0); ("grid_minor", JInt 0)] eq_refl).
Defined.

(** X9. A document without a [series] key loads, but the series loop
    of [plot] cannot run on it: [series_data] is [None] and iterating it
    raises [TypeError], whatever the filters (a pattern that does not
    compile fails first). *)
Theorem no_series_no_plot {np : Numpy} (regex : Type) (re_compile : string -> option regex)
    (re_match : regex -> string -> bool)
    (cfg : PlotData) (kvs : list (string * json))
    (series_filter series_regex : option (list string)) :
  process_json init_attributes (JObj kvs) = Ok cfg ->
  Py.assoc "series" kvs = None ->
  (forall calls,
     plot_all_series regex re_compile re_match cfg series_filter series_regex <> Ok calls)
  /\ plot_all_series regex re_compile re_match cfg series_filter None = Raise TypeError.
Proof.
  intros H Hk. apply series_data_loaded in H. rewrite Hk in H.
  unfold plot_all_series. rewrite H. split; [|reflexivity].
  intros calls. destruct (compile_filters regex re_compile series_regex); discriminate.
Qed.

Lemma no_series_no_plot_witness :
  plot_all_series unit (fun _ => Some tt) (fun _ _ => true)
    init_attributes (Some ["a"%string]) None = Raise TypeError.
Proof.
  apply (no_series_no_plot (np := sample_numpy) unit (fun _ => Some tt) (fun _ _ => true) init_attributes
           [("x_ticks_minor", JInt 0); ("y_ticks_minor", JInt 0);
            ("grid_major", JInt 0); ("grid_minor", JInt 0)]
           (Some ["a"%string]) None eq_refl eq_refl).
Defined.

(** X10. An entry that is an object never fails on its optional keys:
    each attribute is the value under its key, with [None] for a missing
    name, color, line style or marker, [2.0] for a missing line width
    and [4] for a missing marker size; without a [data] key both
    coordinate sequences are empty, and with one the entry fails only if
    the data cannot be iterated. *)
Theorem series_entry_attributes (kvs : list (string * json)) :
  match Py.assoc "data" kvs with
  | None => process_series (JObj kvs) = Ok (series_of kvs [])
  | Some d =>
      match Py.iter d with
      | Ok vs => process_series (JObj kvs) = Ok (series_of kvs vs)
      | Raise e => process_series (JObj kvs) = Raise e
      end
  end.
Proof.
  unfold process_series, series_of. rewrite !get_or_obj. simpl.
  fold (dict_get kvs "name" JNull) (dict_get kvs "color" JNull)
       (dict_get kvs "linewidth" SERIES_DEFAULT_LINEWIDTH)
       (dict_get kvs "linestyle" JNull) (dict_get kvs "marker" JNull)
       (dict_get kvs "marker_size" SERIES_DEFAULT_MARKER_SIZE).
  destruct (Py.assoc "data" kvs) as [d|]; simpl; [|reflexivity].
  destruct (Py.iter d) as [vs|e]; reflexivity.
Qed.

(** ** Shapes of series data *)

Lemma indices_snoc (n : nat) : indices (S n) = indices n ++ [JInt (Z.of_nat n)].
Proof. unfold indices. rewrite seq_S, map_app. reflexivity. Qed.

Lemma indices_length (n : nat) : List.length (indices n) = n.
Proof. unfold indices. rewrite length_map, length_seq. reflexivity. Qed.

(** X11. Data made only of bare numbers and one-element lists is
    numbered from zero: the x coordinates are 0, 1, ..., n-1 and the y
    coordinates are the values in order. *)
Theorem implicit_x_enumerates (data : list json) :
  forallb no_x data = true ->
  series_points data = (indices (List.length data), map bare_y data).
Proof.
  induction data as [|v data IH] using rev_ind; intros H.
  - reflexivity.
  - rewrite forallb_app in H. apply andb_prop in H as [Hd Hv].
    rewrite series_points_snoc, (IH Hd), length_app, map_app. simpl.
    rewrite Nat.add_1_r, indices_snoc, indices_length. simpl in Hv.
    destruct v as [| | | | |l|]; try discriminate Hv; try reflexivity.
    destruct l as [|b [|c l]]; try discriminate Hv. reflexivity.
Qed.

Lemma implicit_x_enumerates_witness :
  series_points [JFloat 0.5%float; JList [JInt 9]; JInt 3]
  = (indices 3, [JFloat 0.5%float; JInt 9; JInt 3]).
Proof.
  apply (implicit_x_enumerates [JFloat 0.5%float; JList [JInt 9]; JInt 3]).
  reflexivity.
Defined.

(** X12. Data made only of two-element lists is split as it stands:
    the x coordinates are the first elements and the y coordinates the
    second ones, in order, and no index is made up. *)
Theorem pairs_split (data : list json) :
  forallb is_pair data = true ->
  series_points data = (map pair_x data, map pair_y data).
Proof.
  induction data as [|v data IH] using rev_ind; intros H.
  - reflexivity.
  - rewrite forallb_app in H. apply andb_prop in H as [Hd Hv].
    rewrite series_points_snoc, (IH Hd), !map_app. simpl in Hv |- *.
    destruct v as [| | | | |l|]; try discriminate Hv.
    destruct l as [|a [|b [|c l]]]; try discriminate Hv. reflexivity.
Qed.

Lemma pairs_split_witness :
  series_points [JList [JInt 1; JInt 10]; JList [JStr "a"; JNull]]
  = ([JInt 1; JStr "a"], [JInt 10; JNull]).
Proof.
  apply (pairs_split [JList [JInt 1; JInt 10]; JList [JStr "a"; JNull]]).
  reflexivity.
Defined.

(** X13. Exactly the well-shaped elements give a point: the number of
    coordinates equals the number of data elements that are a list of
    one or two elements or a number. *)
Theorem points_counted (data : list json) :
  List.length (fst (series_points data))
  = List.length (List.filter (fun v => negb (other_shape v)) data).
Proof.
  induction data as [|v data IH] using rev_ind.
  - reflexivity.
  - rewrite series_points_snoc, List.filter_app, length_app, <- IH.
    destruct (series_points data) as [x y]. simpl.
    destruct v as [| | | | |l|]; simpl; rewrite ?length_app; simpl; try lia.
    destruct l as [|a [|b [|c l]]]; simpl; rewrite ?length_app; simpl; lia.
Qed.

(** ** Fill data that has no length *)

(** X14. A fill data element without a length (a number, a boolean,
    [null]) makes the whole normalization fail wherever it stands: the
    result is an exception, [TypeError] when the elements before it are
    lists, and never a list of triples with the element left out. *)
Theorem fill_unsized_fails (before after : list json) (v : json) :
  Py.len v = Raise TypeError ->
  exists e,
    fill_points (before ++ v :: after) = Raise e
    /\ lookup_error e = true
    /\ (forallb Py.is_list before = true -> e = TypeError).
Proof.
  intros Hv. unfold fill_points. rewrite fold_result_app.
  destruct (fold_result fill_point before ([], [], [])) as [[[x y0] y1]|e] eqn:E; simpl.
  - unfold fill_point at 1. rewrite Hv. simpl.
    exists TypeError. repeat split.
  - exists e. repeat split.
    + apply (raises_only_fold_result fill_point before raises_only_fill_point _ _ E).
    + intros Hl. destruct (fill_points_lists before Hl) as (a & b & c & Hok & _).
      unfold fill_points in Hok. congruence.
Qed.

Lemma fill_unsized_fails_witness :
  exists e,
    fill_points ([JList [JInt 0; JInt 1]] ++ JBool true :: [JList [JInt 2; JInt 3]]) = Raise e
    /\ lookup_error e = true
    /\ (forallb Py.is_list [JList [JInt 0; JInt 1]] = true -> e = TypeError).
Proof.
  apply (fill_unsized_fails [JList [JInt 0; JInt 1]] [JList [JInt 2; JInt 3]] (JBool true)).
  reflexivity.
Defined.

(** * Further properties of the output stage *)

Lemma ask_accepts (retries : list string) (answer : string) (rest : list string)
    (b : Z) (w : World) :
  forallb rejected retries = true ->
  strtobool (lower answer) = Ok b ->
  ask (retries ++ answer :: rest) w
  = (Ok b, mkWorld (files w) rest
             (stdout w ++ List.repeat MSG_RESPOND (List.length retries)) (shown w)).
Proof.
  intros Hr Ha. revert w. induction retries as [|line retries IH]; intros w.
  - simpl. rewrite Ha, app_nil_r. reflexivity.
  - simpl in Hr. apply andb_prop in Hr as [Hl Hr].
    cbn [app ask]. unfold rejected in Hl.
    destruct (strtobool (lower line)) as [|[]]; try discriminate Hl.
    rewrite (IH Hr). simpl. rewrite <- app_assoc. reflexivity.
Qed.

Lemma ask_exhausted (lines : list string) (w : World) :
  forallb rejected lines = true ->
  ask lines w
  = (Raise EOFError,
     mkWorld (files w) [] (stdout w ++ List.repeat MSG_RESPOND (List.length lines))
       (shown w)).
Proof.
  revert w. induction lines as [|line lines IH]; intros w Hr.
  - simpl. rewrite app_nil_r. reflexivity.
  - simpl in Hr. apply andb_prop in Hr as [Hl Hr].
    cbn [ask]. unfold rejected in Hl.
    destruct (strtobool (lower line)) as [|[]]; try discriminate Hl.
    rewrite (IH _ Hr). simpl. rewrite <- app_assoc. reflexivity.
Qed.

Lemma strtobool_range (val : string) :
  strtobool val = Ok 1 \/ strtobool val = Ok 0 \/ strtobool val = Raise ValueError.
Proof.
  unfold strtobool.
  destruct (existsb _ _); [auto|]. destruct (existsb _ _); auto.
Qed.

(** What the loop of the prompt leaves behind, whatever is typed. *)
Lemma ask_outcome (lines : list string) (w : World) :
  let r := ask lines w in
  (fst r = Ok 0 \/ fst r = Ok 1 \/ fst r = Raise EOFError)
  /\ files (snd r) = files w /\ shown (snd r) = shown w
  /\ exists consumed, lines = consumed ++ stdin (snd r).
Proof.
  cbv zeta. revert w. induction lines as [|line lines IH]; intros w.
  - simpl. repeat split; auto. exists []. reflexivity.
  - cbn [ask].
    destruct (strtobool_range (lower line)) as [E|[E|E]]; rewrite E.
    + simpl. repeat split; auto. exists [line]. reflexivity.
    + simpl. repeat split; auto. exists [line]. reflexivity.
    + destruct (IH (write MSG_RESPOND
                      (mkWorld (files w) lines (stdout w) (shown w))))
        as (Hr & Hf & Hs & consumed & Hc).
      repeat split; try assumption.
      exists (line :: consumed). simpl. f_equal. exact Hc.
Qed.

(** The prompt never changes a file. *)
Lemma prompt_files (question : string) (w : World) :
  files (snd (user_yes_no_query question w)) = files w.
Proof.
  unfold user_yes_no_query.
  apply (ask_outcome (stdin (write (question ++ " [y/n]" ++ newline)%string w))
           (write (question ++ " [y/n]" ++ newline)%string w)).
Qed.

(** X15. The prompt ends in one of three ways only: the answer no, the
    answer yes, or [EOFError] when the input runs out.  It never changes
    a file, and what is left on standard input is what followed the
    lines it read. *)
Theorem prompt_outcomes (question : string) (w : World) :
  let r := user_yes_no_query question w in
  (fst r = Ok 0 \/ fst r = Ok 1 \/ fst r = Raise EOFError)
  /\ files (snd r) = files w
  /\ exists consumed, stdin w = consumed ++ stdin (snd r).
Proof.
  cbv zeta. unfold user_yes_no_query.
  destruct (ask_outcome (stdin (write (question ++ " [y/n]" ++ newline)%string w))
              (write (question ++ " [y/n]" ++ newline)%string w))
    as (Hr & Hf & _ & Hc).
  repeat split; assumption.
Qed.

(** X16. The output step changes the files only through [savefig],
    called at most once, on the output path, resolution and image it was
    given and on the files as they were: afterwards the files are either
    unchanged or as that call left them, whatever the force flag and
    whatever is typed at the prompt; with no output path they are
    unchanged. *)
Theorem output_changes_files_by_savefig {plt : Pyplot} (image : string)
    (output_file : option string) (dpi : option Z) (force : bool) (w : World) :
  let w' := snd (plot_output image output_file dpi force w) in
  (output_file = None -> files w' = files w)
  /\ (files w' = files w
      \/ exists f, output_file = Some f
                   /\ files w' = snd (plt_savefig f dpi image (files w))).
Proof.
  cbv zeta. split; [intros ->; reflexivity|].
  unfold plot_output. destruct output_file as [f|]; [|left; reflexivity].
  assert (Hsave : forall w1, files w1 = files w ->
            files (snd (match savefig f dpi image w1 with
                        | (Ok _, w2) => (Ok tt, print (MSG_SAVED f dpi) w2)
                        | (Raise e, w2) => (Raise e, w2)
                        end))
            = snd (plt_savefig f dpi image (files w))).
  { intros w1 H1. unfold savefig. rewrite H1.
    destruct (plt_savefig f dpi image (files w)) as [[u|e] fs]; reflexivity. }
  destruct force.
  - right. exists f. split; [reflexivity | apply Hsave; reflexivity].
  - unfold file_overwrite_check.
    destruct (files w !! f) as [old|].
    + pose proof (prompt_files (MSG_EXISTS f) w) as Hf.
      destruct (user_yes_no_query (MSG_EXISTS f) w) as [[z|e] w1];
        simpl in Hf; [|left; exact Hf].
      destruct (Z.eqb z 0); cbn [negb].
      * left. exact Hf.
      * right. exists f. split; [reflexivity | apply Hsave; exact Hf].
    + right. exists f. split; [reflexivity | apply Hsave; reflexivity].
Qed.



(** X18. With an existing file, no force flag and an answer of yes
    (after any number of lines the prompt does not understand),
    [savefig] is called on the files as they were: when it returns, the
    files are as it left them and the report that the figure was saved
    is the last thing written; when it raises, the exception ends
    [plot] after the question and the reminders, with no report. *)
Theorem confirmed_overwrite {plt : Pyplot} (image f : string) (dpi : option Z)
    (w : World) (old : string) (retries : list string) (answer : string)
    (rest : list string) :
  files w !! f = Some old ->
  stdin w = retries ++ answer :: rest ->
  forallb rejected retries = true ->
  says_yes answer = true ->
  plot_output image (Some f) dpi false w
  = match plt_savefig f dpi image (files w) with
    | (Ok _, fs) =>
        (Ok tt,
         mkWorld fs rest
           (stdout w ++ [(MSG_EXISTS f ++ " [y/n]" ++ newline)%string]
              ++ List.repeat MSG_RESPOND (List.length retries)
              ++ [(MSG_SAVED f dpi ++ newline)%string])
           (shown w))
    | (Raise e, fs) =>
        (Raise e,
         mkWorld fs rest
           (stdout w ++ [(MSG_EXISTS f ++ " [y/n]" ++ newline)%string]
              ++ List.repeat MSG_RESPOND (List.length retries))
           (shown w))
    end.
Proof.
  intros Hf Hin Hr Ha.
  assert (Hb : strtobool (lower answer) = Ok 1).
  { unfold says_yes in Ha.
    destruct (strtobool (lower answer)) as [[|[| |]|]|]; try discriminate Ha.
    reflexivity. }
  unfold plot_output, file_overwrite_check, user_yes_no_query. rewrite Hf.
  cbn [stdin write]. rewrite Hin, (ask_accepts _ _ _ 1 _ Hr Hb).
  cbn. unfold savefig. cbn.
  destruct (plt_savefig f dpi image (files w)) as [[u|e] fs]; cbn;
    unfold print, write; cbn; rewrite <- ?app_assoc; reflexivity.
Qed.

Lemma confirmed_overwrite_witness :
  plot_output (plt := sample_pyplot) "new image" (Some "fig.png") None false
    (mkWorld {[ "fig.png" := "old image" ]} ["what"; "YES"] [] false)
  = (Ok tt,
     mkWorld (<["fig.png" := "new image"]> {[ "fig.png" := "old image" ]}) []
       ([] ++ [(MSG_EXISTS "fig.png" ++ " [y/n]" ++ newline)%string]
           ++ List.repeat MSG_RESPOND (List.length ["what"%string])
           ++ [(MSG_SAVED "fig.png" None ++ newline)%string])
       false).
Proof.
  refine (confirmed_overwrite (plt := sample_pyplot) "new image" "fig.png" None
            (mkWorld {[ "fig.png" := "old image" ]} ["what"; "YES"] [] false)
            "old image" ["what"%string] "YES" [] _ _ _ _).
  - vm_compute. reflexivity.
  - reflexivity.
  - reflexivity.
  - reflexivity.
Defined.

(** X19. With an existing file, no force flag and an input that runs
    out before a yes or a no is read, the call ends in [EOFError]: the
    file is left as it was and neither report is written, only the
    question and one reminder per line read. *)
Theorem prompt_runs_out {plt : Pyplot} (image f : string) (dpi : option Z)
    (w : World) (old : string) :
  files w !! f = Some old ->
  forallb rejected (stdin w) = true ->
  plot_output image (Some f) dpi false w
  = (Raise EOFError,
     mkWorld (files w) []
       (stdout w ++ [(MSG_EXISTS f ++ " [y/n]" ++ newline)%string]
          ++ List.repeat MSG_RESPOND (List.length (stdin w)))
       (shown w)).
Proof.
  intros Hf Hr.
  unfold plot_output, file_overwrite_check, user_yes_no_query. rewrite Hf.
  cbn [stdin write]. rewrite (ask_exhausted _ _ Hr).
  cbn. rewrite <- !app_assoc. reflexivity.
Qed.

Lemma prompt_runs_out_witness :
  plot_output (plt := sample_pyplot) "new image" (Some "fig.png") None false
    (mkWorld {[ "fig.png" := "old image" ]} ["maybe"; ""] [] false)
  = (Raise EOFError,
     mkWorld {[ "fig.png" := "old image" ]} []
       ([] ++ [(MSG_EXISTS "fig.png" ++ " [y/n]" ++ newline)%string]
           ++ List.repeat MSG_RESPOND (List.length ["maybe"%string; ""%string]))
       false).
Proof.
  refine (prompt_runs_out (plt := sample_pyplot) "new image" "fig.png" None
            (mkWorld {[ "fig.png" := "old image" ]} ["maybe"; ""] [] false)
            "old image" _ _).
  - vm_compute. reflexivity.
  - reflexivity.
Defined.

(** * Further properties of the series loop *)

Lemma draw_all (regex : Type) (re_match : regex -> string -> bool)
    (l : list Series) (calls : list ax_call) :
  fold_result (draw_series regex re_match None None None) l calls
  = Ok (calls ++ flat_map drawn l).
Proof.
  revert calls. induction l as [|s l IH]; intros calls; simpl.
  - rewrite app_nil_r. reflexivity.
  - unfold draw_series at 1. simpl. rewrite IH. unfold drawn at 2.
    rewrite <- app_assoc. reflexivity.
Qed.

(** X20. Without filters every series is drawn, once and in the order
    of [series_data], each line followed by its dash pattern if it has
    one; the names play no part, so series without a name are drawn
    too. *)
Theorem unfiltered_draws_all (regex : Type) (re_compile : string -> option regex)
    (re_match : regex -> string -> bool) (self : PlotData) (l : list Series) :
  series_data self = Some l ->
  plot_all_series regex re_compile re_match self None None = Ok (flat_map drawn l).
Proof.
  intros Hl. unfold plot_all_series. simpl. rewrite Hl. apply draw_all.
Qed.

Lemma unfiltered_draws_all_witness :
  plot_all_series unit (fun _ => None) (fun _ _ => false)
    (set_series_data
       (Some [mkSeries JNull JNull (JInt 1) (JStr "--") JNull (JInt 4) [] []])
       init_attributes)
    None None
  = Ok (flat_map drawn [mkSeries JNull JNull (JInt 1) (JStr "--") JNull (JInt 4) [] []]).
Proof.
  apply (unfiltered_draws_all unit (fun _ => None) (fun _ _ => false)
           (set_series_data
              (Some [mkSeries JNull JNull (JInt 1) (JStr "--") JNull (JInt 4) [] []])
              init_attributes)).
  reflexivity.
Defined.

Lemma draw_selected (regex : Type) (re_compile : string -> option regex)
    (re_match : regex -> string -> bool)
    (series_filter series_regex : option (list string)) (rs : option (list regex))
    (l : list Series) (calls : list ax_call) :
  series_regex <> Some [] ->
  compile_filters regex re_compile series_regex = Ok rs ->
  forallb named l = true ->
  fold_result (draw_series regex re_match series_filter series_regex rs) l calls
  = Ok (calls ++ flat_map drawn
                   (List.filter (name_selected re_match series_filter rs) l)).
Proof.
  intros Hne Hc. revert calls. induction l as [|s l IH]; intros calls Hn; simpl.
  - rewrite app_nil_r. reflexivity.
  - simpl in Hn. apply andb_prop in Hn as [Hs Hn].
    unfold draw_series at 1. unfold named in Hs. unfold name_selected at 1.
    destruct (s_name s) as [| | | |n| |] eqn:En; try discriminate Hs.
    rewrite (plot_series_named re_compile re_match _ _ _ s n En Hne Hc).
    cbn [bind].
    destruct (selected re_match series_filter rs n); cbn [bind]; rewrite (IH _ Hn).
    + cbn [flat_map]. unfold drawn at 2. rewrite <- app_assoc. reflexivity.
    + reflexivity.
Qed.

(** X21. With filters, when every series has a string for a name and
    the pattern list is not the empty list, the series drawn are exactly
    the selected ones, once each and in their original order; a pattern
    that does not compile stops [plot] before anything is drawn. *)
Theorem filtered_draws_selected (regex : Type) (re_compile : string -> option regex)
    (re_match : regex -> string -> bool) (self : PlotData) (l : list Series)
    (series_filter series_regex : option (list string)) :
  series_data self = Some l ->
  forallb named l = true ->
  series_regex <> Some [] ->
  match compile_filters regex re_compile series_regex with
  | Ok rs =>
      plot_all_series regex re_compile re_match self series_filter series_regex
      = Ok (flat_map drawn (List.filter (name_selected re_match series_filter rs) l))
  | Raise e =>
      plot_all_series regex re_compile re_match self series_filter series_regex
      = Raise e
  end.
Proof.
  intros Hl Hn Hne. unfold plot_all_series.
  destruct (compile_filters regex re_compile series_regex) as [rs|e] eqn:Hc; simpl;
    [|reflexivity].
  rewrite Hl.
  rewrite (draw_selected regex re_compile re_match _ _ _ _ [] Hne Hc Hn).
  reflexivity.
Qed.

Lemma filtered_draws_selected_witness :
  plot_all_series unit (fun _ => Some tt) (fun _ _ => false)
    (set_series_data
       (Some [mkSeries (JStr "alpha") JNull (JInt 1) JNull JNull (JInt 4) [] [];
              mkSeries (JStr "beta") JNull (JInt 1) JNull JNull (JInt 4) [] []])
       init_attributes)
    (Some ["al"%string]) None
  = Ok (flat_map drawn
          (List.filter (name_selected (fun (_ : unit) _ => false) (Some ["al"%string]) None)
             [mkSeries (JStr "alpha") JNull (JInt 1) JNull JNull (JInt 4) [] [];
              mkSeries (JStr "beta") JNull (JInt 1) JNull JNull (JInt 4) [] []])).
Proof.
  refine (filtered_draws_selected unit (fun _ => Some tt) (fun _ _ => false)
            (set_series_data
               (Some [mkSeries (JStr "alpha") JNull (JInt 1) JNull JNull (JInt 4) [] [];
                      mkSeries (JStr "beta") JNull (JInt 1) JNull JNull (JInt 4) [] []])
               init_attributes)
            _ (Some ["al"%string]) None _ _ _).
  - reflexivity.
  - reflexivity.
  - discriminate.
Defined.

(** The filter ["al"] keeps the series named alpha and leaves the one
    named beta out. *)
Example filter_alpha_beta :
  plot_all_series unit (fun _ => Some tt) (fun _ _ => false)
    (set_series_data
       (Some [mkSeries (JStr "alpha") JNull (JInt 1) JNull JNull (JInt 4) [] [];
              mkSeries (JStr "beta") JNull (JInt 1) JNull JNull (JInt 4) [] []])
       init_attributes)
    (Some ["al"%string]) None
  = Ok [ax_plot (mkSeries (JStr "alpha") JNull (JInt 1) JNull JNull (JInt 4) [] [])].
Proof. reflexivity. Qed.

(** X22. A series without a name (its name is [None]) cannot be
    filtered: with a name filter that holds at least one string, or with
    compiled patterns and no name filter, the selection raises
    [TypeError] instead of leaving the series out. *)
Theorem unnamed_series_filtered_raises (regex : Type)
    (re_match : regex -> string -> bool) (series : Series) :
  s_name series = JNull ->
  (forall a strings series_regex rs,
     plot_series regex re_match (Some (a :: strings)) series_regex rs series
     = Raise TypeError)
  /\ (forall p patterns r rs,
        plot_series regex re_match None (Some (p :: patterns)) (Some (r :: rs)) series
        = Raise TypeError).
Proof.
  intros Hn. split.
  - intros a strings series_regex rs. unfold plot_series. rewrite Hn. reflexivity.
  - intros p patterns r rs. unfold plot_series. rewrite Hn. reflexivity.
Qed.

Lemma unnamed_series_filtered_raises_witness :
  plot_series unit (fun _ _ => true) (Some ["a"%string]) None None
    (series_of [("data", JList [])] [])
  = Raise TypeError.
Proof.
  apply (proj1 (unnamed_series_filtered_raises unit (fun _ _ => true)
                  (series_of [("data", JList [])] []) eq_refl)).
Defined.

(** * Documents that are not objects *)

Lemma getitem_not_object (raw_json : json) (k : string) :
  (forall kvs, raw_json <> JObj kvs) -> Py.getitem raw_json k = Raise TypeError.
Proof. intros H. destruct raw_json; try reflexivity. exfalso. eapply H. reflexivity. Qed.

Lemma flag_given_not_object (raw_json : json) (k : string) :
  (forall kvs, raw_json <> JObj kvs) -> flag_given raw_json k = Raise TypeError.
Proof.
  intros H. unfold flag_given. rewrite (getitem_not_object _ _ H).
  destruct (Py.contains_key k raw_json) as [[|]|e] eqn:E; simpl; try reflexivity.
  destruct raw_json; simpl in E; try discriminate E; injection E as <-; reflexivity.
Qed.

Lemma assign_if_not_object {V : Type} (raw_json : json) (c : result bool)
    (v : result V) (set : V -> PlotData -> PlotData) (s : PlotData) :
  (c = Ok false \/ c = Raise TypeError) \/ (c = Ok true /\ v = Raise TypeError) ->
  assign_if c v set s = Ok s \/ assign_if c v set s = Raise TypeError.
Proof.
  unfold assign_if. intros [[-> | ->] | [-> ->]]; simpl; auto.
Qed.

Lemma contains_key_not_object (raw_json : json) (k : string) :
  (forall kvs, raw_json <> JObj kvs) ->
  (exists b, Py.contains_key k raw_json = Ok b)
  \/ Py.contains_key k raw_json = Raise TypeError.
Proof.
  intros _. destruct raw_json; simpl; eauto.
Qed.

(** Before the flags, each step on a document that is not an object
    either changes nothing or raises [TypeError]. *)
Lemma step_not_object {V : Type} (raw_json : json) (k : string)
    (rest : result bool) (v : result V)
    (set : V -> PlotData -> PlotData) (s : PlotData) :
  (forall kvs, raw_json <> JObj kvs) ->
  (rest = Raise TypeError) -> v = Raise TypeError ->
  assign_if (and_then (Py.contains_key k raw_json) rest) v set s = Ok s
  \/ assign_if (and_then (Py.contains_key k raw_json) rest) v set s = Raise TypeError.
Proof.
  intros H Hr Hv. apply (assign_if_not_object raw_json).
  destruct (contains_key_not_object raw_json k H) as [[b ->] | ->]; simpl; auto.
  destruct b; auto.
Qed.

Lemma copy_key_not_object (raw_json : json) (k : string)
    (set : json -> PlotData -> PlotData) (s : PlotData) :
  (forall kvs, raw_json <> JObj kvs) ->
  copy_key raw_json k set s = Ok s \/ copy_key raw_json k set s = Raise TypeError.
Proof.
  intros H. unfold copy_key. apply (assign_if_not_object raw_json).
  rewrite (getitem_not_object _ _ H).
  destruct (contains_key_not_object raw_json k H) as [[[|] ->] | ->]; auto.
Qed.

(** X23. A document that decodes to anything but an object (an array,
    a string, a number, a boolean, [null]) never loads: [process_json]
    raises [TypeError], which [process_file] does not catch, so the
    program ends on the exception and not with the invalid-file
    message. *)
Theorem non_object_raises {np : Numpy} (json_load : string -> result json)
    (fs : gmap string string) (path_to_file text : string) (raw_json : json) :
  (forall kvs, raw_json <> JObj kvs) ->
  fs !! path_to_file = Some text ->
  json_load text = Ok raw_json ->
  process_json init_attributes raw_json = Raise TypeError
  /\ PlotData_init json_load fs path_to_file = Uncaught TypeError.
Proof.
  intros H Hf Hj.
  assert (Hp : forall self, process_json self raw_json = Raise TypeError).
  { intros self. unfold process_json.
    assert (Hn : forall k, nonempty_at raw_json k = Raise TypeError).
    { intros k. unfold nonempty_at. rewrite (getitem_not_object _ _ H). reflexivity. }
    assert (Hg : forall k, Py.getitem raw_json k = Raise TypeError).
    { intros k. apply (getitem_not_object _ _ H). }
    assert (Hl : forall k,
               and_then (let! x := Py.getitem raw_json k in Ok (negb (Py.is_none x)))
                        (nonempty_at raw_json k) = Raise TypeError).
    { intros k. rewrite Hg. reflexivity. }
    assert (Hi : forall k,
               and_then (let! x := Py.getitem raw_json k in Ok (Py.is_list x))
                        (nonempty_at raw_json k) = Raise TypeError).
    { intros k. rewrite Hg. reflexivity. }
    assert (Ht : forall k, tuple_at raw_json k = Raise TypeError).
    { intros k. unfold tuple_at. rewrite Hg. reflexivity. }
    repeat
      match goal with
      | |- bind (copy_key raw_json ?k ?set ?s) _ = _ =>
          destruct (copy_key_not_object raw_json k set s H) as [-> | ->];
          [cbn [bind] | reflexivity]
      | |- bind (copy_nonempty raw_json ?k ?set ?s) _ = _ =>
          unfold copy_nonempty at 1;
          destruct (step_not_object raw_json k _ _ set s H (Hn k) (Hg k)) as [-> | ->];
          [cbn [bind] | reflexivity]
      | |- bind (assign_if (legend_loc_given raw_json ?k) _ ?set ?s) _ = _ =>
          unfold legend_loc_given at 1;
          destruct (step_not_object raw_json k _ _ set s H (Hl k) (Hg k)) as [-> | ->];
          [cbn [bind] | reflexivity]
      | |- bind (assign_if (lim_given raw_json ?k) _ ?set ?s) _ = _ =>
          unfold lim_given at 1;
          destruct (step_not_object raw_json k _ _ set s H (Hi k) (Ht k)) as [-> | ->];
          [cbn [bind] | reflexivity]
      end.
    unfold set_flag, assign_if. rewrite (flag_given_not_object _ _ H). reflexivity. }
  split; [apply Hp|].
  unfold PlotData_init, process_file, decode. rewrite Hf, Hj. cbn [bind].
  rewrite Hp. reflexivity.
Qed.

Lemma non_object_raises_witness :
  PlotData_init (np := sample_numpy) sample_load {[ "plot.json" := "[]" ]} "plot.json" = Uncaught TypeError.
Proof.
  apply (proj2 (non_object_raises (np := sample_numpy) sample_load {[ "plot.json" := "[]" ]}
                  "plot.json" "[]" (JList [])
                  ltac:(discriminate) ltac:(vm_compute; reflexivity) eq_refl)).
Defined.
